(** * Helix Insights: the Madison threat-analysis core of [src/app.py]

    Shallow embedding of [MadisonIntelligenceAgent.is_date_recent],
    [MadisonIntelligenceAgent.analyze_record],
    [MadisonIntelligenceAgent.generate_action_items] and
    [generate_executive_summary].

    Modelling conventions.
    - Python strings are Rocq [string]s; the model covers ASCII text
      (the regular expressions of [strptime] match ASCII digits, and
      [str.lower] is the ASCII lower-casing).
    - A record is a Python dict; the keys the core reads are fields of
      type [option pyval]: [None] is an absent key, [Some PyNone] a key
      bound to Python [None], [Some (PyStr s)] a key bound to a string.
    - [datetime.now()] is the [clock]: [today] is the proleptic
      Gregorian ordinal of the current date (so [(now - date).days] is
      [today - toordinal date] for a date at midnight) and [timestamp]
      is [now.isoformat()].  The two [is_date_recent] calls of one
      [analyze_record] read the same clock.
    - A Python exception escaping a function is [None] of an [option]
      result. *)

From Stdlib Require Import String Ascii ZArith List Bool Lia.
From Stdlib Require Import Sorting.Permutation Sorting.Sorted.
Import ListNotations.
Open Scope string_scope.
Open Scope Z_scope.

(** ** Python values and string helpers *)

Inductive pyval : Type :=
| PyNone
| PyStr (s : string).

(** Python truthiness of a (possibly [None]) string. *)
Definition truthy (v : pyval) : bool :=
  match v with
  | PyNone => false
  | PyStr s => negb (String.eqb s "")
  end.

(** [record.get(key, default)]. *)
Definition get (v : option pyval) (default : pyval) : pyval :=
  match v with
  | Some x => x
  | None => default
  end.

(** [(record.get(key, '') or '')]. *)
Definition str_or_empty (v : option pyval) : string :=
  match get v (PyStr "") with
  | PyStr s => if String.eqb s "" then "" else s
  | PyNone => ""
  end.

Definition lower_ascii (c : ascii) : ascii :=
  let n := nat_of_ascii c in
  if (65 <=? n)%nat && (n <=? 90)%nat then ascii_of_nat (n + 32) else c.

(** [s.lower()]. *)
Fixpoint lower (s : string) : string :=
  match s with
  | EmptyString => EmptyString
  | String c s' => String (lower_ascii c) (lower s')
  end.

Fixpoint starts_with (p s : string) : bool :=
  match p, s with
  | EmptyString, _ => true
  | String _ _, EmptyString => false
  | String a p', String b s' => Ascii.eqb a b && starts_with p' s'
  end.

(** Python's [needle in hay] on strings. *)
Fixpoint contains (needle hay : string) : bool :=
  starts_with needle hay ||
  match hay with
  | EmptyString => false
  | String _ hay' => contains needle hay'
  end.

(** [any(term in text for term in terms)]. *)
Definition any_in (terms : list string) (text : string) : bool :=
  existsb (fun t => contains t text) terms.

(** [s[:n]]. *)
Definition slice_to (n : nat) (s : string) : string := substring 0 n s.

(** ** [datetime.strptime(date_string, '%Y-%m-%d')]

    [_strptime] compiles the format into the regular expression
    [(?P<Y>\d\d\d\d)-(?P<m>1[0-2]|0[1-9]|[1-9])-(?P<d>3[01]|[12]\d|0[1-9]|[1-9]| [1-9])],
    takes the first match [re.match] finds (alternatives tried left to
    right, backtracking into [m] when the following [-] is missing),
    raises [ValueError] if data remains after the match, and then builds
    the date, which raises for year 0 or a day past the end of the month. *)

Definition digit (c : ascii) : option Z :=
  let n := nat_of_ascii c in
  if (48 <=? n)%nat && (n <=? 57)%nat then Some (Z.of_nat n - 48) else None.

Definition digit_in (lo hi : Z) (c : ascii) : option Z :=
  match digit c with
  | Some v => if (lo <=? v) && (v <=? hi) then Some v else None
  | None => None
  end.

(** One alternative of a group: the value read and the rest of the input. *)
Definition alt := string -> option (Z * string).

(** [c1c2] with [c1] the fixed digit [d1] and [c2] in [lo..hi]. *)
Definition alt_two (d1 lo hi : Z) : alt := fun s =>
  match s with
  | String a (String b r) =>
      match digit_in d1 d1 a, digit_in lo hi b with
      | Some x, Some y => Some (10 * x + y, r)
      | _, _ => None
      end
  | _ => None
  end.

(** [[lo-hi]]: one digit. *)
Definition alt_one (lo hi : Z) : alt := fun s =>
  match s with
  | String a r =>
      match digit_in lo hi a with Some x => Some (x, r) | None => None end
  | _ => None
  end.

(** [ [1-9]]: a space then one digit. *)
Definition alt_space_one : alt := fun s =>
  match s with
  | String " "%char r => alt_one 1 9 r
  | _ => None
  end.

(** [[12]\d]. *)
Definition alt_12d : alt := fun s =>
  match s with
  | String a (String b r) =>
      match digit_in 1 2 a, digit b with
      | Some x, Some y => Some (10 * x + y, r)
      | _, _ => None
      end
  | _ => None
  end.

Definition month_alts : list alt := [alt_two 1 0 2; alt_two 0 1 9; alt_one 1 9].
Definition day_alts : list alt :=
  [alt_two 3 0 1; alt_12d; alt_two 0 1 9; alt_one 1 9; alt_space_one].

(** Ordered alternation with backtracking into the continuation [k]. *)
Fixpoint try_alts {A : Type} (alts : list alt) (k : Z -> string -> option A)
    (s : string) : option A :=
  match alts with
  | [] => None
  | a :: rest =>
      match match a s with Some (v, r) => k v r | None => None end with
      | Some x => Some x
      | None => try_alts rest k s
      end
  end.

Definition year4 (s : string) : option (Z * string) :=
  match s with
  | String a (String b (String c (String d r))) =>
      match digit a, digit b, digit c, digit d with
      | Some x1, Some x2, Some x3, Some x4 =>
          Some (1000 * x1 + 100 * x2 + 10 * x3 + x4, r)
      | _, _, _, _ => None
      end
  | _ => None
  end.

Definition dash (s : string) : option string :=
  match s with
  | String "-"%char r => Some r
  | _ => None
  end.

(** [re.match] of the [%Y-%m-%d] pattern: year, month, day, unmatched rest. *)
Definition ymd_match (s : string) : option (Z * Z * Z * string) :=
  match year4 s with
  | None => None
  | Some (y, r1) =>
      match dash r1 with
      | None => None
      | Some r2 =>
          try_alts month_alts
            (fun m r3 =>
               match dash r3 with
               | None => None
               | Some r4 => try_alts day_alts (fun d r5 => Some (y, m, d, r5)) r4
               end) r2
      end
  end.

Definition is_leap (y : Z) : bool :=
  (Z.eqb (y mod 4) 0 && negb (Z.eqb (y mod 100) 0)) || Z.eqb (y mod 400) 0.

Definition days_in_month (y m : Z) : Z :=
  match m with
  | 1 | 3 | 5 | 7 | 8 | 10 | 12 => 31
  | 4 | 6 | 9 | 11 => 30
  | 2 => if is_leap y then 29 else 28
  | _ => 0
  end.

Fixpoint days_before_month_aux (y : Z) (k : nat) : Z :=
  match k with
  | O => 0
  | S k' => days_before_month_aux y k' + days_in_month y (Z.of_nat k)
  end.

Definition days_before_month (y m : Z) : Z :=
  days_before_month_aux y (Z.to_nat (m - 1)).

(** [date(y, m, d).toordinal()]. *)
Definition toordinal (y m d : Z) : Z :=
  let y1 := y - 1 in
  y1 * 365 + y1 / 4 - y1 / 100 + y1 / 400 + days_before_month y m + d.

(** [datetime.strptime(s, '%Y-%m-%d')], as the ordinal of the parsed
    date, or [None] where it raises. *)
Definition strptime_ymd (s : string) : option Z :=
  match ymd_match s with
  | Some (y, m, d, rest) =>
      if String.eqb rest "" && (1 <=? y) && (1 <=? m) && (m <=? 12)
         && (1 <=? d) && (d <=? days_in_month y m)
      then Some (toordinal y m d) else None
  | None => None
  end.

Record clock : Type := {
  today : Z;
  timestamp : string
}.

(** [MadisonIntelligenceAgent.is_date_recent]; the bare [except:] turns
    every failure of the [try] block into [False]. *)
Definition is_date_recent (now : clock) (date_string : pyval)
    (days_threshold : Z) : bool :=
  match date_string with
  | PyNone => false
  | PyStr s =>
      if negb (truthy date_string) || String.eqb s "N/A" then false
      else
        match strptime_ymd s with
        | None => false
        | Some date =>
            let diff_days := today now - date in
            (0 <=? diff_days) && (diff_days <=? days_threshold)
        end
  end.

(** ** Records and the threat analysis *)

Record record : Type := {
  source : option pyval;
  company : option pyval;
  deviceName : option pyval;
  trialTitle : option pyval;
  productCode : option pyval;
  decisionDate : option pyval;
  startDate : option pyval
}.

Inductive level : Type := CRITICAL | HIGH | MEDIUM | LOW.

Definition level_eqb (a b : level) : bool :=
  match a, b with
  | CRITICAL, CRITICAL | HIGH, HIGH | MEDIUM, MEDIUM | LOW, LOW => true
  | _, _ => false
  end.

(** The order of the levels (LOW lowest), for stating monotonicity. *)
Definition level_rank (l : level) : Z :=
  match l with LOW => 0 | MEDIUM => 1 | HIGH => 2 | CRITICAL => 3 end.

Record action_item : Type := {
  priority : string;
  action : string;
  timeline : string;
  owner : string
}.

(** [MadisonIntelligenceAgent.generate_action_items]. *)
Definition generate_action_items (threat_level : level) (company device : string)
    : list action_item :=
  let company_name := if String.eqb company "" then "Competitor" else company in
  let device_name := if String.eqb device "" then "device" else device in
  let a1 :=
    if level_eqb threat_level CRITICAL then
      [{| priority := "URGENT";
          action := "IMMEDIATE: Executive briefing on " ++ company_name ++ "'s "
                    ++ device_name;
          timeline := "Within 48 hours";
          owner := "Executive Leadership" |}]
    else [] in
  let a2 :=
    if existsb (level_eqb threat_level) [HIGH; CRITICAL] then
      [{| priority := "HIGH";
          action := "Competitive deep-dive: " ++ company_name
                    ++ " strategy and positioning";
          timeline := "Within 2 weeks";
          owner := "Competitive Intelligence" |}]
    else [] in
  let a3 :=
    if existsb (level_eqb threat_level) [MEDIUM; HIGH; CRITICAL] then
      [{| priority := "MEDIUM";
          action := "Monitor " ++ company_name ++ " market activities";
          timeline := "Next 90 days";
          owner := "Market Intelligence" |}]
    else [] in
  a1 ++ a2 ++ a3 ++
  [{| priority := "LOW";
      action := "Include in quarterly competitive review";
      timeline := "Quarterly";
      owner := "Strategic Planning" |}].

Record intelligence : Type := {
  threatScore : Z;
  threatLevel : level;
  confidence : Z;
  strategicImplications : list string;
  actionItems : list action_item;
  analysisTimestamp : string;
  agentVersion : string
}.

(** The running state of [analyze_record]: [threat_score], [confidence]
    and [strategic_implications]. *)
Record acc : Type := mkAcc {
  acc_score : Z;
  acc_conf : Z;
  acc_notes : list string
}.

Definition acc0 : acc := mkAcc 0 0 [].

(** [threat_score += ds; confidence += dc; strategic_implications.append(note)]. *)
Definition bump (ds dc : Z) (note : string) (a : acc) : acc :=
  mkAcc (acc_score a + ds) (acc_conf a + dc) (acc_notes a ++ [note]).

Definition ophthalmic_terms : list string :=
  ["contact lens"; "intraocular"; "iol"; "lens";
   "ophthalmic"; "vision"; "eye"; "retina"; "cornea";
   "cataract"; "glaucoma"; "myopia"; "surgical";
   "vitreous"; "retinal"; "ocular"; "subretinal"; "aspirator"].

Definition advanced_terms : list string :=
  ["surgical"; "implant"; "laser"; "aspirator"; "injector"; "advanced"].

Definition advanced_phases : list string :=
  ["phase 3"; "phase iii"; "phase 2"; "phase ii"].

Definition major_competitors : list string :=
  ["alcon"; "bausch"; "coopervision"; "zeiss"; "johnson";
   "novartis"; "essilor"; "hoya"; "menicon"; "paragon";
   "optical"; "vision"; "staar"; "amo"].

(** [record.get('decisionDate') or record.get('startDate', '')]. *)
Definition effective_date (r : record) : pyval :=
  match decisionDate r with
  | Some v => if truthy v then v else get (startDate r) (PyStr "")
  | None => get (startDate r) (PyStr "")
  end.

(** [f"{device_name} {trial_title} {product_code}"]. *)
Definition search_text (r : record) : string :=
  lower (str_or_empty (deviceName r)) ++ " " ++ lower (str_or_empty (trialTitle r))
  ++ " " ++ lower (str_or_empty (productCode r)).

(** Factor 1: recent activity. *)
Definition factor_recency (now : clock) (r : record) (a : acc) : acc :=
  if is_date_recent now (effective_date r) 730 then
    bump 35 25 "Recent approval/trial within last 2 years" a
  else if is_date_recent now (effective_date r) 1825 then
    bump 20 15 "Activity within last 5 years" a
  else a.

(** Factor 2: ophthalmology categories. *)
Definition factor_ophthalmic (r : record) (a : acc) : acc :=
  if any_in ophthalmic_terms (search_text r) then
    bump 30 20 "High-value ophthalmology product category" a
  else a.

(** Factor 3: advanced/surgical devices. *)
Definition factor_advanced (r : record) (a : acc) : acc :=
  if any_in advanced_terms (search_text r) then
    bump 25 15 "Advanced surgical or premium device" a
  else a.

(** Factor 4: FDA approval ([source] is the string [record.get('source', '')]). *)
Definition factor_fda (source : string) (a : acc) : acc :=
  if contains "FDA" source then
    bump 20 15 "FDA 510(k) clearance provides market access" a
  else a.

(** Factor 5: clinical trial, with the nested advanced-phase bonus. *)
Definition factor_clinical (source : string) (r : record) (a : acc) : acc :=
  if contains "Clinical" source then
    let a' := bump 15 10 "Active clinical development" a in
    if any_in advanced_phases (lower (str_or_empty (trialTitle r))) then
      bump 30 20 "Advanced clinical phase" a'
    else a'
  else a.

(** Factor 6: major competitors. *)
Definition factor_competitor (r : record) (a : acc) : acc :=
  if any_in major_competitors (lower (str_or_empty (company r))) then
    bump 25 20 "Established ophthalmology competitor" a
  else a.

(** The threat-level table, with its confidence adjustment. *)
Definition determine_level (threat_score confidence : Z) : level * Z :=
  if 70 <=? threat_score then (CRITICAL, Z.min (confidence + 25) 95)
  else if 50 <=? threat_score then (HIGH, Z.min (confidence + 15) 90)
  else if 30 <=? threat_score then (MEDIUM, Z.min (confidence + 10) 85)
  else if 10 <=? threat_score then (LOW, Z.max confidence 70)
  else (LOW, 60).

(** The six factors in source order, from a string [source]. *)
Definition run_factors (now : clock) (src : string) (r : record) : acc :=
  factor_competitor r
    (factor_clinical src r
       (factor_fda src
          (factor_advanced r
             (factor_ophthalmic r
                (factor_recency now r acc0))))).

(** [MadisonIntelligenceAgent.analyze_record].  [record.get('source', '')]
    bound to [None] makes ['FDA' in source] raise [TypeError]: [None]. *)
Definition analyze_record (now : clock) (r : record) : option intelligence :=
  match get (source r) (PyStr "") with
  | PyNone => None
  | PyStr src =>
      let a := run_factors now src r in
      let '(lvl, conf) := determine_level (acc_score a) (acc_conf a) in
      let company_l := lower (str_or_empty (company r)) in
      let device_l := lower (str_or_empty (deviceName r)) in
      let trial_l := lower (str_or_empty (trialTitle r)) in
      Some {| threatScore := acc_score a;
              threatLevel := lvl;
              confidence := conf;
              strategicImplications := acc_notes a;
              actionItems := generate_action_items lvl company_l
                               (if String.eqb device_l "" then trial_l else device_l);
              analysisTimestamp := timestamp now;
              agentVersion := "Madison_Intelligence_v1.3" |}
  end.

Definition alcon_record (ds : string) : record :=
  {| source := Some (PyStr "FDA 510(k)");
     company := Some (PyStr "Alcon Laboratories");
     deviceName := Some (PyStr "AcrySof IQ Vivity Extended Vision Intraocular Lens");
     trialTitle := None; productCode := None;
     decisionDate := Some (PyStr ds); startDate := None |}.

Definition phase3_record : record :=
  {| source := Some (PyStr "ClinicalTrials.gov");
     company := None; deviceName := None;
     trialTitle := Some (PyStr "Phase III Study of X");
     productCode := None; decisionDate := None; startDate := None |}.

(** ** The executive summary *)

(** A scored record: the dict after [record['madisonIntelligence'] = intelligence]. *)
Record analyzed : Type := {
  ar_record : record;
  madisonIntelligence : intelligence
}.

Record critical_entry : Type := {
  ce_company : pyval;
  ce_product : string;
  ce_threatScore : Z;
  ce_confidence : Z;
  ce_urgentAction : string
}.

Record high_entry : Type := {
  he_company : pyval;
  he_product : string;
  he_threatScore : Z;
  he_confidence : Z
}.

Record threat_counts : Type := mkCounts {
  n_CRITICAL : Z;
  n_HIGH : Z;
  n_MEDIUM : Z;
  n_LOW : Z
}.

Definition counts0 : threat_counts := mkCounts 0 0 0 0.

(** [threat_counts[level] += 1]. *)
Definition incr (l : level) (c : threat_counts) : threat_counts :=
  match l with
  | CRITICAL => mkCounts (n_CRITICAL c + 1) (n_HIGH c) (n_MEDIUM c) (n_LOW c)
  | HIGH => mkCounts (n_CRITICAL c) (n_HIGH c + 1) (n_MEDIUM c) (n_LOW c)
  | MEDIUM => mkCounts (n_CRITICAL c) (n_HIGH c) (n_MEDIUM c + 1) (n_LOW c)
  | LOW => mkCounts (n_CRITICAL c) (n_HIGH c) (n_MEDIUM c) (n_LOW c + 1)
  end.

(** [(record.get('deviceName') or record.get('trialTitle', 'Unknown'))[:100]];
    slicing [None] raises [TypeError]. *)
Definition product_of (r : record) : option string :=
  let dn := get (deviceName r) PyNone in
  match (if truthy dn then dn else get (trialTitle r) (PyStr "Unknown")) with
  | PyStr s => Some (slice_to 100 s)
  | PyNone => None
  end.

(** [list.sort(key=lambda x: key(x), reverse=True)]: Python's sort is
    stable also with [reverse=True], so elements with equal keys keep
    their order.  Insertion sort computes that same list. *)
Section StableSort.
Context {A : Type} (key : A -> Z).

Fixpoint insert_desc (x : A) (l : list A) : list A :=
  match l with
  | [] => [x]
  | y :: t => if key y <? key x then x :: y :: t else y :: insert_desc x t
  end.

Fixpoint sort_desc_aux (done todo : list A) : list A :=
  match todo with
  | [] => done
  | x :: t => sort_desc_aux (insert_desc x done) t
  end.

Definition sort_desc (l : list A) : list A := sort_desc_aux [] l.
End StableSort.

(** Python's [round(a / b)] for [b > 0]: round half to even. *)
Definition py_round_div (a b : Z) : Z :=
  let q := a / b in
  let r := a mod b in
  if 2 * r <? b then q
  else if b <? 2 * r then q + 1
  else if Z.even q then q else q + 1.

Fixpoint digits_of (fuel : nat) (n : Z) (acc : string) : string :=
  match fuel with
  | O => acc
  | S f =>
      let acc' := String (ascii_of_nat (48 + Z.to_nat (n mod 10))) acc in
      if n <? 10 then acc' else digits_of f (n / 10) acc'
  end.

(** [str(n)] for an integer. *)
Definition str_Z (n : Z) : string :=
  let fuel := S (Z.to_nat (Z.log2 (Z.abs n))) in
  if n <? 0 then "-" ++ digits_of fuel (- n) "" else digits_of fuel n "".

Record summary : Type := {
  threatOverview : threat_counts;
  averageConfidence : Z;
  totalRecords : Z;
  criticalThreats : list critical_entry;
  highThreats : list high_entry;
  executiveSummary : string
}.

(** The state of the [for record in analyzed_records] loop. *)
Record loop_state : Type := mkLoop {
  ls_counts : threat_counts;
  ls_critical : list critical_entry;
  ls_high : list high_entry;
  ls_total_conf : Z
}.

(** The [critical_threats] entry of a CRITICAL record. *)
Definition critical_entry_of (ar : analyzed) : option critical_entry :=
  let intel := madisonIntelligence ar in
  let r := ar_record ar in
  match product_of r with
  | None => None
  | Some p =>
      Some {| ce_company := get (company r) (PyStr "Unknown");
              ce_product := p;
              ce_threatScore := threatScore intel;
              ce_confidence := confidence intel;
              ce_urgentAction :=
                match actionItems intel with
                | a :: _ => action a
                | [] => "Review immediately"
                end |}
  end.

(** The [high_threats] entry of a HIGH record. *)
Definition high_entry_of (ar : analyzed) : option high_entry :=
  let intel := madisonIntelligence ar in
  let r := ar_record ar in
  match product_of r with
  | None => None
  | Some p =>
      Some {| he_company := get (company r) (PyStr "Unknown");
              he_product := p;
              he_threatScore := threatScore intel;
              he_confidence := confidence intel |}
  end.

Definition summary_step (st : loop_state) (ar : analyzed) : option loop_state :=
  let intel := madisonIntelligence ar in
  let counts := incr (threatLevel intel) (ls_counts st) in
  let total := ls_total_conf st + confidence intel in
  match threatLevel intel with
  | CRITICAL =>
      match critical_entry_of ar with
      | None => None
      | Some e => Some (mkLoop counts (ls_critical st ++ [e]) (ls_high st) total)
      end
  | HIGH =>
      match high_entry_of ar with
      | None => None
      | Some e => Some (mkLoop counts (ls_critical st) (ls_high st ++ [e]) total)
      end
  | _ => Some (mkLoop counts (ls_critical st) (ls_high st) total)
  end.

Fixpoint summary_loop (st : loop_state) (rs : list analyzed) : option loop_state :=
  match rs with
  | [] => Some st
  | ar :: rest =>
      match summary_step st ar with
      | None => None
      | Some st' => summary_loop st' rest
      end
  end.

(** [generate_executive_summary]. *)
Definition generate_executive_summary (analyzed_records : list analyzed)
    : option summary :=
  match summary_loop (mkLoop counts0 [] [] 0) analyzed_records with
  | None => None
  | Some st =>
      let n := Z.of_nat (length analyzed_records) in
      let c := ls_counts st in
      let critical_threats := sort_desc ce_threatScore (ls_critical st) in
      let high_threats := sort_desc he_threatScore (ls_high st) in
      let avg_confidence :=
        match analyzed_records with
        | [] => 0
        | _ => py_round_div (ls_total_conf st) n
        end in
      Some {| threatOverview := c;
              averageConfidence := avg_confidence;
              totalRecords := n;
              criticalThreats := firstn 5 critical_threats;
              highThreats := firstn 5 high_threats;
              executiveSummary :=
                "Helix Insights analyzed " ++ str_Z n
                ++ " competitive records from FDA device approvals and clinical trial databases. Analysis identified "
                ++ str_Z (n_CRITICAL c)
                ++ " CRITICAL threats requiring immediate executive action, "
                ++ str_Z (n_HIGH c)
                ++ " HIGH priority items for strategic competitive review, "
                ++ str_Z (n_MEDIUM c)
                ++ " MEDIUM priority items for ongoing monitoring, and "
                ++ str_Z (n_LOW c)
                ++ " LOW priority items for quarterly review. Average threat assessment confidence level: "
                ++ str_Z avg_confidence ++ "%." |}
  end.

(** The quarterly review item every action list ends with. *)
Definition quarterly_item : action_item :=
  {| priority := "LOW";
     action := "Include in quarterly competitive review";
     timeline := "Quarterly";
     owner := "Strategic Planning" |}.

(** Whether a scored record has the given level. *)
Definition is_level (l : level) (ar : analyzed) : bool :=
  level_eqb (threatLevel (madisonIntelligence ar)) l.

(** ** The data providers: [fetch_fda_data] and [fetch_clinical_trials]

    The HTTP request is the environment: its answer is the input of the
    model.  [Raised] is an exception of [requests.get] (timeout,
    connection error); [Answer status body] a response, whose [body] is
    [None] where [response.json()] raises or does not give a dict.  The
    [st.warning] calls only display text and are left out.  Payload leaves
    are JSON strings or [null]. *)

Inductive response (B : Type) : Type :=
| Raised
| Answer (status : Z) (body : option B).
Arguments Raised {B}.
Arguments Answer {B} status body.

(** A key of a JSON object: absent, bound to [null], or bound to a value. *)
Inductive field (A : Type) : Type :=
| Absent
| Null
| Val (a : A).
Arguments Absent {A}.
Arguments Null {A}.
Arguments Val {A} a.

(** [obj.get(key, default)] for a string leaf. *)
Definition get_str (f : field string) (default : string) : pyval :=
  match f with
  | Absent => PyStr default
  | Null => PyNone
  | Val s => PyStr s
  end.

(** [obj.get(key, {})] followed by a [.get] on the result: [None] when the
    key is bound to [null] ([AttributeError]). *)
Definition get_obj {A : Type} (f : field A) (empty : A) : option A :=
  match f with
  | Absent => Some empty
  | Null => None
  | Val a => Some a
  end.

(** All-or-nothing [for] loop: an exception in any iteration escapes. *)
Fixpoint map_all {A B : Type} (f : A -> option B) (l : list A) : option (list B) :=
  match l with
  | [] => Some []
  | x :: t =>
      match f x with
      | None => None
      | Some y => match map_all f t with None => None | Some ys => Some (y :: ys) end
      end
  end.

Record fda_item : Type := {
  applicant : field string;
  device_name : field string;
  product_code : field string;
  decision_date : field string;
  device_class : field string
}.

Record fda_result : Type := {
  fr_source : string;
  fr_company : pyval;
  fr_deviceName : pyval;
  fr_productCode : pyval;
  fr_decisionDate : pyval;
  fr_status : string;
  fr_regulatoryClass : pyval
}.

(** [if decision_date and len(decision_date) == 8:
       decision_date = f"{decision_date[:4]}-{decision_date[4:6]}-{decision_date[6:]}"]. *)
Definition format_decision_date (v : pyval) : pyval :=
  match v with
  | PyStr s =>
      if truthy v && Nat.eqb (String.length s) 8 then
        PyStr (substring 0 4 s ++ "-" ++ substring 4 2 s ++ "-"
               ++ substring 6 (String.length s - 6) s)
      else v
  | PyNone => PyNone
  end.

(** The body of the [for item in data.get('results', [])] loop;
    an item that is [null] raises. *)
Definition fda_result_of_item (item : option fda_item) : option fda_result :=
  match item with
  | None => None
  | Some it =>
      let decision_date := format_decision_date (get_str (decision_date it) "") in
      Some {| fr_source := "FDA 510(k)";
              fr_company := get_str (applicant it) "Unknown";
              fr_deviceName := get_str (device_name it) "Unknown Device";
              fr_productCode := get_str (product_code it) "";
              fr_decisionDate := if truthy decision_date then decision_date
                                 else PyStr "N/A";
              fr_status := "Approved";
              fr_regulatoryClass := get_str (device_class it) "Unknown" |}
  end.

(** [fetch_fda_data]; [body] is the ['results'] key of the JSON answer. *)
Definition fetch_fda_data (resp : response (field (list (option fda_item))))
    : list fda_result :=
  match resp with
  | Raised => []
  | Answer status body =>
      if Z.eqb status 200 then
        match body with
        | None => []
        | Some Absent => []
        | Some Null => []
        | Some (Val items) =>
            match map_all fda_result_of_item items with
            | Some results => results
            | None => []
            end
        end
      else []
  end.

Record lead_sponsor : Type := { ls_name : field string }.
Record sponsor_module : Type := { leadSponsor : field lead_sponsor }.
Record identification_module : Type := {
  briefTitle : field string;
  nctId : field string
}.
Record start_date_struct : Type := { sds_date : field string }.
Record status_module : Type := {
  startDateStruct : field start_date_struct;
  overallStatus : field string
}.
Record design_module : Type := { phases : field (list string) }.
Record protocol_section : Type := {
  identificationModule : field identification_module;
  statusModule : field status_module;
  sponsorCollaboratorsModule : field sponsor_module;
  designModule : field design_module
}.
Record study : Type := { protocolSection : field protocol_section }.

Definition empty_protocol : protocol_section :=
  {| identificationModule := Absent; statusModule := Absent;
     sponsorCollaboratorsModule := Absent; designModule := Absent |}.

Record clinical_result : Type := {
  cr_source : string;
  cr_company : pyval;
  cr_trialTitle : pyval;
  cr_nctId : pyval;
  cr_status : pyval;
  cr_startDate : pyval;
  cr_phase : string
}.

(** The body of the [for study in data.get('studies', [])[:50]] loop. *)
Definition clinical_result_of_study (st : option study) : option clinical_result :=
  match st with
  | None => None
  | Some s =>
      match get_obj (protocolSection s) empty_protocol with
      | None => None
      | Some protocol =>
          match get_obj (identificationModule protocol) {| briefTitle := Absent; nctId := Absent |},
                get_obj (statusModule protocol) {| startDateStruct := Absent; overallStatus := Absent |},
                get_obj (sponsorCollaboratorsModule protocol) {| leadSponsor := Absent |},
                get_obj (designModule protocol) {| phases := Absent |} with
          | Some identification, Some status_mod, Some sponsor_mod, Some design_mod =>
              match get_obj (startDateStruct status_mod) {| sds_date := Absent |},
                    get_obj (leadSponsor sponsor_mod) {| ls_name := Absent |} with
              | Some date_struct, Some lead =>
                  let start_date := get_str (sds_date date_struct) "N/A" in
                  let phase :=
                    match phases design_mod with
                    | Val (p :: _) => p
                    | _ => "Unknown"
                    end in
                  Some {| cr_source := "ClinicalTrials.gov";
                          cr_company := get_str (ls_name lead) "Unknown";
                          cr_trialTitle := get_str (briefTitle identification) "Unknown Trial";
                          cr_nctId := get_str (nctId identification) "";
                          cr_status := get_str (overallStatus status_mod) "Unknown";
                          cr_startDate := start_date;
                          cr_phase := phase |}
              | _, _ => None
              end
          | _, _, _, _ => None
          end
      end
  end.

(** [fetch_clinical_trials]; [body] is the ['studies'] key of the JSON answer
    ([None[:50]] raises for a [null] one). *)
Definition fetch_clinical_trials (resp : response (field (list (option study))))
    : list clinical_result :=
  match resp with
  | Raised => []
  | Answer status body =>
      if Z.eqb status 200 then
        match body with
        | None => []
        | Some Absent => []
        | Some Null => []
        | Some (Val studies) =>
            match map_all clinical_result_of_study (firstn 50 studies) with
            | Some results => results
            | None => []
            end
        end
      else []
  end.

(** The dict an FDA result is, read through the keys the core uses. *)
Definition record_of_fda (f : fda_result) : record :=
  {| source := Some (PyStr (fr_source f)); company := Some (fr_company f);
     deviceName := Some (fr_deviceName f); trialTitle := None;
     productCode := Some (fr_productCode f); decisionDate := Some (fr_decisionDate f);
     startDate := None |}.

(** The dict a ClinicalTrials.gov result is, read through the same keys. *)
Definition record_of_clinical (c : clinical_result) : record :=
  {| source := Some (PyStr (cr_source c)); company := Some (cr_company c);
     deviceName := None; trialTitle := Some (cr_trialTitle c);
     productCode := None; decisionDate := None; startDate := Some (cr_startDate c) |}.

(** ** The analysis step of [main] *)

(** [for record in all_records: record['madisonIntelligence'] = analyze_record(record)]. *)
Definition analyze_all (now : clock) (records : list record) : option (list analyzed) :=
  map_all (fun r => match analyze_record now r with
                    | Some i => Some {| ar_record := r; madisonIntelligence := i |}
                    | None => None
                    end) records.

(** The analysis followed by [generate_executive_summary(analyzed_records)]. *)
Definition run_analysis (now : clock) (records : list record)
    : option (list analyzed * summary) :=
  match analyze_all now records with
  | None => None
  | Some analyzed_records =>
      match generate_executive_summary analyzed_records with
      | None => None
      | Some s => Some (analyzed_records, s)
      end
  end.

(** [all_records = fda_data + clinical_data]. *)
Definition fetched_records (fda : list fda_result) (clinical : list clinical_result)
    : list record :=
  (map record_of_fda fda ++ map record_of_clinical clinical)%list.

(** The eight characters [YYYYMMDD] of a date, as the FDA API writes
    [decision_date]. *)
Definition digit_char (n : Z) : ascii := ascii_of_nat (48 + Z.to_nat n).

Definition yyyymmdd (y m d : Z) : string :=
  String (digit_char (y / 1000)) (String (digit_char (y / 100 mod 10))
  (String (digit_char (y / 10 mod 10)) (String (digit_char (y mod 10))
  (String (digit_char (m / 10)) (String (digit_char (m mod 10))
  (String (digit_char (d / 10)) (String (digit_char (d mod 10)) EmptyString))))))).

(** Count of the records of a level. *)
Definition count_level (l : level) (rs : list analyzed) : Z :=
  Z.of_nat (length (filter (is_level l) rs)).

(** The sum of the confidences of the analysed records. *)
Definition total_confidence (rs : list analyzed) : Z :=
  fold_right (fun ar t => confidence (madisonIntelligence ar) + t) 0 rs.

(** A value with its text lower-cased. *)
Definition lower_pv (v : pyval) : pyval :=
  match v with
  | PyNone => PyNone
  | PyStr s => PyStr (lower s)
  end.

(** A record whose text fields (company, device name, trial title and
    product code) are lower-cased; source and dates are kept. *)
Definition lower_fields (r : record) : record :=
  {| source := source r;
     company := option_map lower_pv (company r);
     deviceName := option_map lower_pv (deviceName r);
     trialTitle := option_map lower_pv (trialTitle r);
     productCode := option_map lower_pv (productCode r);
     decisionDate := decisionDate r;
     startDate := startDate r |}.

(** ** Concrete inputs *)

(** 2024-11-29: 45 days after 2024-10-15. *)
Definition demo_clock : clock :=
  {| today := 739219; timestamp := "2024-11-29T09:00:00" |}.

(** A record on which no factor fires. *)
Definition quiet_record : record :=
  {| source := Some (PyStr "Registry"); company := Some (PyStr "Acme Corp");
     deviceName := Some (PyStr "Blood Pressure Cuff"); trialTitle := None;
     productCode := Some (PyStr "DXN"); decisionDate := Some (PyStr "N/A");
     startDate := None |}.

(** A record on which only the FDA factor fires. *)
Definition fda_only_record : record :=
  {| source := Some (PyStr "FDA 510(k)"); company := None;
     deviceName := Some (PyStr "Blood Pressure Cuff"); trialTitle := None;
     productCode := None; decisionDate := None; startDate := None |}.

(** A record with [decisionDate] "N/A" and a recent [startDate]. *)
Definition na_record : record :=
  {| source := Some (PyStr "ClinicalTrials.gov"); company := None;
     deviceName := None; trialTitle := Some (PyStr "Glaucoma Drops Study");
     productCode := None; decisionDate := Some (PyStr "N/A");
     startDate := Some (PyStr "2024-10-15") |}.

Definition scored (k : Z) (lvl : level) : analyzed :=
  {| ar_record :=
       {| source := Some (PyStr "FDA 510(k)"); company := Some (PyStr "Alcon");
          deviceName := Some (PyStr ("Lens " ++ str_Z k)); trialTitle := None;
          productCode := None; decisionDate := None; startDate := None |};
     madisonIntelligence :=
       {| threatScore := k; threatLevel := lvl; confidence := 95;
          strategicImplications := []; actionItems := [];
          analysisTimestamp := ""; agentVersion := "Madison_Intelligence_v1.3" |} |}.

(** Seven CRITICAL records with distinct scores, and two LOW ones. *)
Definition batch7 : list analyzed :=
  [scored 75 CRITICAL; scored 110 CRITICAL; scored 20 LOW; scored 80 CRITICAL;
   scored 95 CRITICAL; scored 70 CRITICAL; scored 0 LOW; scored 100 CRITICAL;
   scored 85 CRITICAL].

(** An openFDA 510(k) item, as the API writes it, and the answer holding it. *)
Definition vivity_item : fda_item :=
  {| applicant := Val "Alcon Laboratories";
     device_name := Val "AcrySof IQ Vivity Extended Vision Intraocular Lens";
     product_code := Val "HQL"; decision_date := Val "20241015";
     device_class := Val "3" |}.

Definition fda_answer : response (field (list (option fda_item))) :=
  Answer 200 (Some (Val [Some vivity_item])).

(** The record [fetch_fda_data] makes of [vivity_item]. *)
Definition vivity_result : fda_result :=
  {| fr_source := "FDA 510(k)"; fr_company := PyStr "Alcon Laboratories";
     fr_deviceName := PyStr "AcrySof IQ Vivity Extended Vision Intraocular Lens";
     fr_productCode := PyStr "HQL"; fr_decisionDate := PyStr "2024-10-15";
     fr_status := "Approved"; fr_regulatoryClass := PyStr "3" |}.

(** A ClinicalTrials.gov study whose start date gives only the month. *)
Definition trial_study : study :=
  {| protocolSection := Val
       {| identificationModule := Val
            {| briefTitle := Val "Phase 3 Study of a Presbyopia-Correcting IOL";
               nctId := Val "NCT01234567" |};
          statusModule := Val
            {| startDateStruct := Val {| sds_date := Val "2024-03" |};
               overallStatus := Val "RECRUITING" |};
          sponsorCollaboratorsModule := Val
            {| leadSponsor := Val {| ls_name := Val "Johnson & Johnson Vision" |} |};
          designModule := Val {| phases := Val ["PHASE3"] |} |} |}.

Definition clinical_answer : response (field (list (option study))) :=
  Answer 200 (Some (Val [Some trial_study])).

(** The record [fetch_clinical_trials] makes of [trial_study]. *)
Definition trial_result : clinical_result :=
  {| cr_source := "ClinicalTrials.gov"; cr_company := PyStr "Johnson & Johnson Vision";
     cr_trialTitle := PyStr "Phase 3 Study of a Presbyopia-Correcting IOL";
     cr_nctId := PyStr "NCT01234567"; cr_status := PyStr "RECRUITING";
     cr_startDate := PyStr "2024-03"; cr_phase := "PHASE3" |}.

(** The records [main] gathers from both answers. *)
Definition demo_records : list record :=
  fetched_records (fetch_fda_data fda_answer) (fetch_clinical_trials clinical_answer).

(** * Properties *)

(** ** Sanity checks on concrete inputs *)

Example toordinal_epoch : toordinal 1 1 1 = 1.
Proof. reflexivity. Qed.
Example toordinal_2024 : strptime_ymd "2024-10-15" = Some 739174.
Proof. reflexivity. Qed.
Example strptime_lenient : strptime_ymd "2024-1-5" = Some (toordinal 2024 1 5).
Proof. reflexivity. Qed.
Example strptime_feb30 : strptime_ymd "2023-02-30" = None.
Proof. reflexivity. Qed.
Example strptime_d35 : strptime_ymd "2024-01-35" = None.
Proof. reflexivity. Qed.
Example alcon_eval :
  option_map (fun i => (threatScore i, threatLevel i, confidence i))
    (analyze_record {| today := 739174 + 45; timestamp := "" |}
       (alcon_record "2024-10-15")) = Some (110, CRITICAL, 95).
Proof. reflexivity. Qed.
Example phase3_eval :
  option_map (fun i => (threatScore i, threatLevel i, confidence i))
    (analyze_record {| today := 739174; timestamp := "" |} phase3_record)
  = Some (45, MEDIUM, 40).
Proof. reflexivity. Qed.
Example str_Z_ex : str_Z 1207 = "1207" /\ str_Z 0 = "0" /\ str_Z 9 = "9" /\ str_Z 10 = "10".
Proof. repeat split; reflexivity. Qed.
Example round_ex : py_round_div 5 2 = 2 /\ py_round_div 7 2 = 4 /\ py_round_div 10 3 = 3.
Proof. repeat split; reflexivity. Qed.

Example batch7_top5 :
  option_map (fun s => (map ce_threatScore (criticalThreats s), threatOverview s,
                        averageConfidence s))
    (generate_executive_summary batch7)
  = Some ([110; 100; 95; 85; 80], mkCounts 7 0 0 2, 95).
Proof. reflexivity. Qed.

(** ** Helper lemmas *)

Ltac split_ifs :=
  repeat match goal with
         | |- context [if ?b then _ else _] => destruct b
         end.

(** The contribution of each factor to [threat_score]. *)
Lemma run_factors_score (now : clock) (src : string) (r : record) :
  acc_score (run_factors now src r) =
    (if is_date_recent now (effective_date r) 730 then 35
     else if is_date_recent now (effective_date r) 1825 then 20 else 0)
    + (if any_in ophthalmic_terms (search_text r) then 30 else 0)
    + (if any_in advanced_terms (search_text r) then 25 else 0)
    + (if contains "FDA" src then 20 else 0)
    + (if contains "Clinical" src then
         15 + (if any_in advanced_phases (lower (str_or_empty (trialTitle r)))
               then 30 else 0)
       else 0)
    + (if any_in major_competitors (lower (str_or_empty (company r))) then 25 else 0).
Proof.
  unfold run_factors, factor_competitor, factor_clinical, factor_fda,
    factor_advanced, factor_ophthalmic, factor_recency.
  split_ifs; simpl; lia.
Qed.

(** The contribution of each factor to the accumulated [confidence]. *)
Lemma run_factors_conf (now : clock) (src : string) (r : record) :
  acc_conf (run_factors now src r) =
    (if is_date_recent now (effective_date r) 730 then 25
     else if is_date_recent now (effective_date r) 1825 then 15 else 0)
    + (if any_in ophthalmic_terms (search_text r) then 20 else 0)
    + (if any_in advanced_terms (search_text r) then 15 else 0)
    + (if contains "FDA" src then 15 else 0)
    + (if contains "Clinical" src then
         10 + (if any_in advanced_phases (lower (str_or_empty (trialTitle r)))
               then 20 else 0)
       else 0)
    + (if any_in major_competitors (lower (str_or_empty (company r))) then 20 else 0).
Proof.
  unfold run_factors, factor_competitor, factor_clinical, factor_fda,
    factor_advanced, factor_ophthalmic, factor_recency.
  split_ifs; simpl; lia.
Qed.

(** Unfolding [analyze_record] on a string [source]. *)
Lemma analyze_record_some (now : clock) (r : record) (i : intelligence) :
  analyze_record now r = Some i ->
  exists src, get (source r) (PyStr "") = PyStr src /\
    threatScore i = acc_score (run_factors now src r) /\
    (threatLevel i, confidence i) =
      determine_level (acc_score (run_factors now src r))
        (acc_conf (run_factors now src r)) /\
    strategicImplications i = acc_notes (run_factors now src r).
Proof.
  unfold analyze_record.
  destruct (get (source r) (PyStr "")) as [|src]; [discriminate|].
  destruct (determine_level _ _) as [lvl conf] eqn:Hd.
  intros H; injection H as <-; simpl.
  exists src; repeat split; auto.
Qed.

Lemma is_date_recent_str (now : clock) (s : string) (thr : Z) :
  is_date_recent now (PyStr s) thr =
    if String.eqb s "" || String.eqb s "N/A" then false
    else match strptime_ymd s with
         | None => false
         | Some date => (0 <=? today now - date) && (today now - date <=? thr)
         end.
Proof.
  unfold is_date_recent, truthy.
  destruct (String.eqb s ""); reflexivity.
Qed.

Lemma strptime_ymd_not_empty (s : string) (d : Z) :
  strptime_ymd s = Some d -> String.eqb s "" || String.eqb s "N/A" = false.
Proof.
  intros H.
  destruct (String.eqb_spec s "") as [->|_]; [discriminate H|].
  destruct (String.eqb_spec s "N/A") as [->|_]; [discriminate H|].
  reflexivity.
Qed.

(** A date recent within a threshold is recent within any larger one. *)
Lemma is_date_recent_mono (now : clock) (v : pyval) (t1 t2 : Z) :
  t1 <= t2 -> is_date_recent now v t1 = true -> is_date_recent now v t2 = true.
Proof.
  intros Hle. destruct v as [|s]; [discriminate|].
  rewrite !is_date_recent_str.
  destruct (_ || _); [discriminate|].
  destruct (strptime_ymd s); [|discriminate].
  rewrite !andb_true_iff, !Z.leb_le. lia.
Qed.

Lemma determine_level_mono (s1 s2 c1 c2 : Z) :
  s1 <= s2 ->
  level_rank (fst (determine_level s1 c1)) <= level_rank (fst (determine_level s2 c2)).
Proof.
  intros Hle. unfold determine_level.
  destruct (Z.leb_spec 70 s1), (Z.leb_spec 50 s1), (Z.leb_spec 30 s1),
    (Z.leb_spec 10 s1), (Z.leb_spec 70 s2), (Z.leb_spec 50 s2),
    (Z.leb_spec 30 s2), (Z.leb_spec 10 s2); simpl; lia.
Qed.

(** ** Claims about [analyze_record] and [is_date_recent] *)

(** C1: the threat level and the final confidence follow the table
    70 / 50 / 30 / 10 evaluated highest first, applied to the score and to
    the confidence accumulated by the six factors; and the level is a
    non-decreasing function of the score, across all records. *)
Theorem analyze_record_level_table (now : clock) (r : record) (i : intelligence)
    (H : analyze_record now r = Some i) :
  exists src, get (source r) (PyStr "") = PyStr src /\
    let s := threatScore i in
    let c := acc_conf (run_factors now src r) in
    (70 <= s -> threatLevel i = CRITICAL /\ confidence i = Z.min (c + 25) 95) /\
    (50 <= s < 70 -> threatLevel i = HIGH /\ confidence i = Z.min (c + 15) 90) /\
    (30 <= s < 50 -> threatLevel i = MEDIUM /\ confidence i = Z.min (c + 10) 85) /\
    (10 <= s < 30 -> threatLevel i = LOW /\ confidence i = Z.max c 70) /\
    (s < 10 -> threatLevel i = LOW /\ confidence i = 60) /\
    (forall now' r' i', analyze_record now' r' = Some i' ->
       s <= threatScore i' ->
       level_rank (threatLevel i) <= level_rank (threatLevel i')).
Proof.
  destruct (analyze_record_some now r i H) as (src & Hsrc & Hs & Hd & _).
  exists src; split; [exact Hsrc|]. cbv zeta.
  rewrite Hs.
  split; [|split; [|split; [|split; [|split]]]].
  1-5: intros Hb; unfold determine_level in Hd;
       destruct (Z.leb_spec 70 (acc_score (run_factors now src r))), 
         (Z.leb_spec 50 (acc_score (run_factors now src r))),
         (Z.leb_spec 30 (acc_score (run_factors now src r))),
         (Z.leb_spec 10 (acc_score (run_factors now src r))); try lia;
       injection Hd as <- <-; auto.
  intros now' r' i' H' Hle.
  destruct (analyze_record_some now' r' i' H') as (src' & _ & Hs' & Hd' & _).
  assert (E1 : threatLevel i = fst (determine_level (acc_score (run_factors now src r))
                                    (acc_conf (run_factors now src r))))
    by (rewrite <- Hd; reflexivity).
  assert (E2 : threatLevel i' = fst (determine_level (acc_score (run_factors now' src' r'))
                                     (acc_conf (run_factors now' src' r'))))
    by (rewrite <- Hd'; reflexivity).
  rewrite E1, E2. apply determine_level_mono. lia.
Qed.

(** C2: the Alcon 510(k) record decided 45 days before the current day
    fires recency, ophthalmic category, FDA provenance and competitor,
    for a score of 110, level CRITICAL and confidence [min(80+25, 95) = 95]. *)
Theorem alcon_scenario (now : clock) (ds : string)
    (H : strptime_ymd ds = Some (today now - 45)) :
  exists i, analyze_record now (alcon_record ds) = Some i /\
    threatScore i = 110 /\ threatLevel i = CRITICAL /\ confidence i = 95 /\
    acc_conf (run_factors now "FDA 510(k)" (alcon_record ds)) = 80 /\
    strategicImplications i =
      ["Recent approval/trial within last 2 years";
       "High-value ophthalmology product category";
       "FDA 510(k) clearance provides market access";
       "Established ophthalmology competitor"].
Proof.
  pose proof (strptime_ymd_not_empty ds _ H) as Hne.
  assert (He : effective_date (alcon_record ds) = PyStr ds).
  { unfold effective_date, truthy; simpl.
    apply orb_false_iff in Hne as [-> _]. reflexivity. }
  assert (Hr : is_date_recent now (effective_date (alcon_record ds)) 730 = true).
  { rewrite He, is_date_recent_str, Hne, H.
    rewrite andb_true_iff, !Z.leb_le. lia. }
  unfold analyze_record, run_factors, factor_recency.
  rewrite Hr. simpl.
  eexists; split; [reflexivity|]. simpl.
  repeat split; reflexivity.
Qed.

(** C3: the advanced-phase bonus is recorded exactly when [source]
    contains "Clinical" and the lower-cased trial title contains a phase
    term; the score adds its 30 only inside the clinical factor; and the
    "Phase III Study of X" ClinicalTrials.gov record with no date scores 45,
    MEDIUM, confidence [min(30+10, 85) = 40]. *)
Theorem clinical_phase_bonus (now : clock) (r : record) (i : intelligence)
    (H : analyze_record now r = Some i) :
  exists src, get (source r) (PyStr "") = PyStr src /\
    (In "Advanced clinical phase" (strategicImplications i) <->
       contains "Clinical" src = true /\
       any_in advanced_phases (lower (str_or_empty (trialTitle r))) = true) /\
    threatScore i =
      (if is_date_recent now (effective_date r) 730 then 35
       else if is_date_recent now (effective_date r) 1825 then 20 else 0)
      + (if any_in ophthalmic_terms (search_text r) then 30 else 0)
      + (if any_in advanced_terms (search_text r) then 25 else 0)
      + (if contains "FDA" src then 20 else 0)
      + (if contains "Clinical" src then
           15 + (if any_in advanced_phases (lower (str_or_empty (trialTitle r)))
                 then 30 else 0)
         else 0)
      + (if any_in major_competitors (lower (str_or_empty (company r))) then 25 else 0) /\
    (r = phase3_record ->
       threatScore i = 45 /\ threatLevel i = MEDIUM /\
       acc_conf (run_factors now src r) = 30 /\ confidence i = 40).
Proof.
  destruct (analyze_record_some now r i H) as (src & Hsrc & Hs & Hd & Hn).
  exists src; split; [exact Hsrc|].
  split; [|split].
  - rewrite Hn.
    unfold run_factors, factor_competitor, factor_clinical, factor_fda,
      factor_advanced, factor_ophthalmic, factor_recency.
    split_ifs; simpl; intuition (try discriminate; try congruence).
  - rewrite Hs. apply run_factors_score.
  - intros ->.
    simpl in Hsrc. injection Hsrc as <-.
    rewrite Hs. vm_compute in Hd. injection Hd as <- <-.
    vm_compute. repeat split; reflexivity.
Qed.

(** C4: [is_date_recent] is true exactly for a string other than [""] and
    ["N/A"] that [strptime(..., '%Y-%m-%d')] parses to a date whose whole-day
    distance to today lies in [[0, days_threshold]]; [None], the empty
    string, ["N/A"], an unparsable string and a future date all give
    [False], and the function always returns a boolean. *)
Theorem is_date_recent_spec (now : clock) (v : pyval) (thr : Z) :
  is_date_recent now v thr = true <->
  exists s d, v = PyStr s /\ s <> "" /\ s <> "N/A" /\
    strptime_ymd s = Some d /\ 0 <= today now - d <= thr.
Proof.
  split.
  - destruct v as [|s]; [discriminate|].
    rewrite is_date_recent_str.
    destruct (String.eqb_spec s "") as [|Hne]; [discriminate|].
    destruct (String.eqb_spec s "N/A") as [|Hna]; [discriminate|].
    simpl. destruct (strptime_ymd s) as [d|] eqn:Hp; [|discriminate].
    rewrite andb_true_iff, !Z.leb_le. intros Hb.
    exists s, d. repeat split; auto; lia.
  - intros (s & d & -> & Hne & Hna & Hp & Hb).
    rewrite is_date_recent_str.
    apply String.eqb_neq in Hne, Hna. rewrite Hne, Hna. simpl.
    rewrite Hp, andb_true_iff, !Z.leb_le. lia.
Qed.

(** C5: a record on which no factor fires scores 0, is LOW, has
    confidence 60 and no implication. *)
Theorem no_factor_low (now : clock) (r : record) (src : string)
    (Hsrc : get (source r) (PyStr "") = PyStr src)
    (Hrec : is_date_recent now (effective_date r) 1825 = false)
    (Hoph : any_in ophthalmic_terms (search_text r) = false)
    (Hadv : any_in advanced_terms (search_text r) = false)
    (Hfda : contains "FDA" src = false)
    (Hcl : contains "Clinical" src = false)
    (Hcomp : any_in major_competitors (lower (str_or_empty (company r))) = false) :
  exists i, analyze_record now r = Some i /\
    threatScore i = 0 /\ threatLevel i = LOW /\ confidence i = 60 /\
    strategicImplications i = [].
Proof.
  assert (Hrec' : is_date_recent now (effective_date r) 730 = false).
  { destruct (is_date_recent now (effective_date r) 730) eqn:E; [|reflexivity].
    rewrite (is_date_recent_mono now _ 730 1825) in Hrec; [discriminate|lia|exact E]. }
  unfold analyze_record. rewrite Hsrc.
  unfold run_factors, factor_competitor, factor_clinical, factor_fda,
    factor_advanced, factor_ophthalmic, factor_recency.
  rewrite Hrec', Hrec, Hoph, Hadv, Hfda, Hcl, Hcomp.
  eexists; split; [reflexivity|]. simpl. repeat split.
Qed.

(** ** Claims about [generate_action_items] *)

(** C6: CRITICAL gives URGENT, HIGH, MEDIUM, LOW; HIGH gives HIGH, MEDIUM,
    LOW; MEDIUM gives MEDIUM, LOW; LOW gives the quarterly item only; the
    quarterly Strategic-Planning item always comes last. *)
Theorem action_items_shape (lvl : level) (company device : string) :
  map priority (generate_action_items lvl company device) =
    match lvl with
    | CRITICAL => ["URGENT"; "HIGH"; "MEDIUM"; "LOW"]
    | HIGH => ["HIGH"; "MEDIUM"; "LOW"]
    | MEDIUM => ["MEDIUM"; "LOW"]
    | LOW => ["LOW"]
    end /\
  (lvl = LOW -> generate_action_items lvl company device = [quarterly_item]) /\
  exists prefix : list action_item,
    generate_action_items lvl company device = (prefix ++ [quarterly_item])%list.
Proof.
  split; [|split].
  - destruct lvl; reflexivity.
  - intros ->. reflexivity.
  - unfold generate_action_items. cbv zeta.
    eexists. rewrite !app_assoc. reflexivity.
Qed.

(** ** Claims about [generate_executive_summary] *)

(** C7: the summary of no record has zero counts, average confidence 0
    (no division), 0 records and no critical or high threat. *)
Theorem summary_empty :
  exists s, generate_executive_summary [] = Some s /\
    threatOverview s = mkCounts 0 0 0 0 /\ averageConfidence s = 0 /\
    totalRecords s = 0 /\ criticalThreats s = [] /\ highThreats s = [].
Proof.
  eexists; split; [reflexivity|]. repeat split.
Qed.

(** ** Further claims about [analyze_record] *)

(** C9: a LOW record has confidence 60 or 70: 60 exactly when the score
    is 0, 70 exactly when the score lies in [[10, 30)]. *)
Theorem low_confidence_60_or_70 (now : clock) (r : record) (i : intelligence)
    (H : analyze_record now r = Some i) (Hlow : threatLevel i = LOW) :
  (confidence i = 60 \/ confidence i = 70) /\
  (confidence i = 60 <-> threatScore i = 0) /\
  (confidence i = 70 <-> 10 <= threatScore i < 30).
Proof.
  destruct (analyze_record_some now r i H) as (src & _ & Hs & Hd & _).
  rewrite Hs. rewrite run_factors_score in *. rewrite run_factors_conf in Hd.
  repeat match goal with
         | Hx : context [if ?b then _ else _] |- _ => destruct b
         | |- context [if ?b then _ else _] => destruct b
         end;
    unfold determine_level in Hd; simpl in Hd; injection Hd as E1 E2; try congruence;
    lia.
Qed.

(** C10: the effective date is [decisionDate] unless that key is absent,
    [None] or [""], and then [startDate]; so a record whose
    [decisionDate] is ["N/A"] gets no recency contribution even with a
    [startDate] within 730 days: it analyses like the same record
    without [startDate]. *)
Theorem decision_date_na_no_fallback (now : clock) (r : record) (s : string) (d : Z)
    (Hdd : decisionDate r = Some (PyStr "N/A"))
    (Hsd : startDate r = Some (PyStr s))
    (Hp : strptime_ymd s = Some d)
    (Hb : 0 <= today now - d <= 730) :
  (forall r',
     (truthy (get (decisionDate r') PyNone) = false <->
      decisionDate r' = None \/ decisionDate r' = Some PyNone \/
      decisionDate r' = Some (PyStr "")) /\
     effective_date r' =
       (if truthy (get (decisionDate r') PyNone) then get (decisionDate r') PyNone
        else get (startDate r') (PyStr ""))) /\
  is_date_recent now (PyStr s) 730 = true /\
  effective_date r = PyStr "N/A" /\
  (forall a, factor_recency now r a = a) /\
  analyze_record now r =
    analyze_record now
      {| source := source r; company := company r; deviceName := deviceName r;
         trialTitle := trialTitle r; productCode := productCode r;
         decisionDate := decisionDate r; startDate := None |}.
Proof.
  assert (He : effective_date r = PyStr "N/A")
    by (unfold effective_date; rewrite Hdd; reflexivity).
  assert (Hf : forall a, factor_recency now r a = a)
    by (intros a; unfold factor_recency; rewrite He; reflexivity).
  split; [|split; [|split; [exact He|split; [exact Hf|]]]].
  - intros r'. split.
    + destruct (decisionDate r') as [[|v]|]; simpl.
      * split; auto.
      * destruct (String.eqb_spec v "") as [->|Hv]; simpl.
        -- split; auto.
        -- split; [discriminate|].
           intros [Hx|[Hx|Hx]]; try discriminate. injection Hx as Hx. contradiction.
      * split; auto.
    + unfold effective_date.
      destruct (decisionDate r') as [v|]; reflexivity.
  - rewrite is_date_recent_str.
    rewrite (strptime_ymd_not_empty s d Hp), Hp, andb_true_iff, !Z.leb_le. lia.
  - unfold analyze_record, run_factors.
    rewrite Hf.
    unfold factor_recency, effective_date at 1. rewrite Hdd. reflexivity.
Qed.

(** ** The stable descending sort and the top-5 cut *)

Section SortProps.
Context {A : Type} (key : A -> Z).

Let R (a b : A) : Prop := key b <= key a.
Let eqk (k : Z) (y : A) : bool := key y =? k.

Lemma R_trans : forall a b c, R a b -> R b c -> R a c.
Proof. unfold R; intros; lia. Qed.

Lemma insert_desc_perm (x : A) (l : list A) :
  Permutation (insert_desc key x l) (x :: l).
Proof.
  induction l as [|y t IH]; simpl; [reflexivity|].
  destruct (key y <? key x); [reflexivity|].
  rewrite IH. apply perm_swap.
Qed.

Lemma sort_desc_aux_perm (done todo : list A) :
  Permutation (sort_desc_aux key done todo) (done ++ todo).
Proof.
  revert done; induction todo as [|x t IH]; intros done; simpl.
  - rewrite app_nil_r. reflexivity.
  - rewrite IH, insert_desc_perm. apply Permutation_middle.
Qed.

Lemma insert_desc_sorted (x : A) (l : list A) :
  Sorted R l -> Sorted R (insert_desc key x l).
Proof.
  induction l as [|y t IH]; intros Hs; simpl.
  - repeat constructor.
  - destruct (Z.ltb_spec (key y) (key x)) as [Hlt|Hge].
    + constructor; [exact Hs|]. constructor. unfold R; lia.
    + inversion Hs as [|? ? Ht Hh]; subst.
      constructor; [apply IH, Ht|].
      destruct t as [|z t']; simpl.
      * constructor. unfold R; lia.
      * inversion Hh; subst.
        destruct (key z <? key x); constructor; unfold R in *; lia.
Qed.

Lemma sort_desc_aux_sorted (done todo : list A) :
  Sorted R done -> Sorted R (sort_desc_aux key done todo).
Proof.
  revert done; induction todo as [|x t IH]; intros done Hs; simpl; auto.
  apply IH, insert_desc_sorted, Hs.
Qed.

Lemma filter_below (k : Z) (l : list A) :
  (forall y, In y l -> key y < k) -> filter (eqk k) l = [].
Proof.
  induction l as [|y t IH]; intros Hl; simpl; [reflexivity|].
  unfold eqk at 1. destruct (Z.eqb_spec (key y) k).
  - specialize (Hl y (or_introl eq_refl)). lia.
  - apply IH. intros z Hz. apply Hl. right; exact Hz.
Qed.

(** Inserting into a sorted list puts [x] after every element of equal key. *)
Lemma insert_desc_filter (k : Z) (x : A) (l : list A) :
  Sorted R l ->
  filter (eqk k) (insert_desc key x l) =
    (filter (eqk k) l ++ (if eqk k x then [x] else []))%list.
Proof.
  induction l as [|y t IH]; intros Hs; simpl.
  - destruct (eqk k x); reflexivity.
  - apply Sorted_StronglySorted in Hs as Hss; [|exact R_trans].
    destruct (Z.ltb_spec (key y) (key x)) as [Hlt|Hge].
    + destruct (eqk k x) eqn:Ex.
      * unfold eqk in Ex. apply Z.eqb_eq in Ex.
        assert (Hz : filter (eqk k) (y :: t) = []).
        { apply filter_below.
          intros z [<-|Hz]; [lia|].
          inversion Hss as [|? ? _ Hf]; subst.
          rewrite Forall_forall in Hf. specialize (Hf z Hz). unfold R in Hf. lia. }
        simpl in Hz |- *. rewrite Hz. unfold eqk at 1. rewrite Ex, Z.eqb_refl.
        reflexivity.
      * simpl. rewrite Ex. destruct (eqk k y); rewrite ?app_nil_r; reflexivity.
    + simpl. inversion Hs; subst.
      rewrite IH by assumption.
      destruct (eqk k y); reflexivity.
Qed.

Lemma sort_desc_aux_filter (k : Z) (done todo : list A) :
  Sorted R done ->
  filter (eqk k) (sort_desc_aux key done todo) =
    (filter (eqk k) done ++ filter (eqk k) todo)%list.
Proof.
  revert done; induction todo as [|x t IH]; intros done Hs; simpl.
  - rewrite app_nil_r. reflexivity.
  - rewrite IH by (apply insert_desc_sorted, Hs).
    rewrite insert_desc_filter by exact Hs.
    rewrite <- app_assoc. destruct (eqk k x); reflexivity.
Qed.

Lemma strongly_sorted_app (a b : list A) :
  StronglySorted R (a ++ b) ->
  StronglySorted R a /\ (forall y x, In y a -> In x b -> R y x).
Proof.
  induction a as [|z a IH]; intros Hs; simpl in *.
  - split; [constructor|]. intros y x [].
  - inversion Hs as [|? ? Hs' Hf]; subst.
    destruct (IH Hs') as [Ha Hab].
    rewrite Forall_forall in Hf.
    split.
    + constructor; [exact Ha|]. rewrite Forall_forall.
      intros w Hw. apply Hf, in_or_app; left; exact Hw.
    + intros y x [<-|Hy] Hx.
      * apply Hf, in_or_app; right; exact Hx.
      * apply Hab; assumption.
Qed.

(** The properties of [sort(key=..., reverse=True)] followed by [[:5]]. *)
Lemma top5_sorted (l : list A) :
  let out := firstn 5 (sort_desc key l) in
  length out = Nat.min 5 (length l) /\
  Sorted R out /\
  (exists rest, Permutation l (out ++ rest) /\
     forall x y, In x rest -> In y out -> key x <= key y) /\
  (forall k, exists tl,
     filter (fun y => key y =? k) l =
       (filter (fun y => key y =? k) out ++ tl)%list).
Proof.
  intros out.
  assert (Hp : Permutation (sort_desc key l) l)
    by (apply sort_desc_aux_perm).
  assert (Hs : Sorted R (sort_desc key l))
    by (apply sort_desc_aux_sorted; constructor).
  assert (Hsplit : sort_desc key l = (out ++ skipn 5 (sort_desc key l))%list)
    by (symmetry; apply firstn_skipn).
  apply Sorted_StronglySorted in Hs as Hss; [|exact R_trans].
  rewrite Hsplit in Hss.
  destruct (strongly_sorted_app _ _ Hss) as [Hout Hlt].
  split; [|split; [|split]].
  - unfold out. rewrite length_firstn, (Permutation_length Hp). reflexivity.
  - apply StronglySorted_Sorted, Hout.
  - exists (skipn 5 (sort_desc key l)). split.
    + rewrite <- Hsplit. symmetry. exact Hp.
    + intros x y Hx Hy. apply (Hlt y x Hy Hx).
  - intros k. exists (filter (eqk k) (skipn 5 (sort_desc key l))).
    change (fun y => key y =? k) with (eqk k).
    rewrite <- filter_app, <- Hsplit.
    unfold sort_desc. rewrite sort_desc_aux_filter by constructor.
    reflexivity.
Qed.
End SortProps.

Lemma summary_loop_entries (st0 st : loop_state) (rs : list analyzed) :
  summary_loop st0 rs = Some st ->
  exists crit high,
    ls_critical st = (ls_critical st0 ++ crit)%list /\
    Forall2 (fun ar e => critical_entry_of ar = Some e) (filter (is_level CRITICAL) rs) crit /\
    ls_high st = (ls_high st0 ++ high)%list /\
    Forall2 (fun ar e => high_entry_of ar = Some e) (filter (is_level HIGH) rs) high.
Proof.
  revert st0; induction rs as [|ar rs IH]; intros st0 H; simpl in H.
  - injection H as <-. exists [], []. rewrite !app_nil_r. repeat split; constructor.
  - destruct (summary_step st0 ar) as [st1|] eqn:Hstep; [|discriminate].
    destruct (IH st1 H) as (c & h & Hc & Fc & Hh & Fh).
    unfold summary_step in Hstep. simpl.
    assert (Ec : is_level CRITICAL ar =
                 level_eqb (threatLevel (madisonIntelligence ar)) CRITICAL) by reflexivity.
    assert (Eh : is_level HIGH ar =
                 level_eqb (threatLevel (madisonIntelligence ar)) HIGH) by reflexivity.
    rewrite Ec, Eh.
    destruct (threatLevel (madisonIntelligence ar)); simpl.
    + destruct (critical_entry_of ar) as [e|] eqn:He; [|discriminate].
      injection Hstep as <-. simpl in Hc, Hh.
      exists (e :: c), h. rewrite <- app_assoc in Hc.
      repeat split; auto.
    + destruct (high_entry_of ar) as [e|] eqn:He; [|discriminate].
      injection Hstep as <-. simpl in Hc, Hh.
      exists c, (e :: h). rewrite <- app_assoc in Hh.
      repeat split; auto.
    + injection Hstep as <-. exists c, h. auto.
    + injection Hstep as <-. exists c, h. auto.
Qed.

(** C8: [criticalThreats] is the first 5 of the CRITICAL entries (built
    in input order) after the stable sort by score, descending: at most 5
    entries, sorted descending, no left-out entry scores above a kept one,
    and entries of equal score keep their input order; likewise
    [highThreats] for the HIGH entries. *)
Theorem summary_top5 (rs : list analyzed) (s : summary)
    (H : generate_executive_summary rs = Some s) :
  exists crit high,
    Forall2 (fun ar e => critical_entry_of ar = Some e)
      (filter (is_level CRITICAL) rs) crit /\
    Forall2 (fun ar e => high_entry_of ar = Some e)
      (filter (is_level HIGH) rs) high /\
    (let out := criticalThreats s in
     length out = Nat.min 5 (length crit) /\
     Sorted (fun a b => ce_threatScore b <= ce_threatScore a) out /\
     (exists rest, Permutation crit (out ++ rest) /\
        forall x y, In x rest -> In y out -> ce_threatScore x <= ce_threatScore y) /\
     (forall k, exists tl,
        filter (fun y => ce_threatScore y =? k) crit =
          (filter (fun y => ce_threatScore y =? k) out ++ tl)%list)) /\
    (let out := highThreats s in
     length out = Nat.min 5 (length high) /\
     Sorted (fun a b => he_threatScore b <= he_threatScore a) out /\
     (exists rest, Permutation high (out ++ rest) /\
        forall x y, In x rest -> In y out -> he_threatScore x <= he_threatScore y) /\
     (forall k, exists tl,
        filter (fun y => he_threatScore y =? k) high =
          (filter (fun y => he_threatScore y =? k) out ++ tl)%list)).
Proof.
  unfold generate_executive_summary in H.
  destruct (summary_loop (mkLoop counts0 [] [] 0) rs) as [st|] eqn:Hl; [|discriminate].
  injection H as <-. simpl.
  destruct (summary_loop_entries _ _ _ Hl) as (c & h & Hc & Fc & Hh & Fh).
  simpl in Hc, Hh. rewrite Hc, Hh.
  exists c, h. split; [exact Fc|]. split; [exact Fh|].
  split; [apply (top5_sorted ce_threatScore c) | apply (top5_sorted he_threatScore h)].
Qed.

(** ** The providers *)

Lemma map_all_forall2 {A B : Type} (f : A -> option B) (l : list A) (l' : list B) :
  map_all f l = Some l' -> Forall2 (fun x y => f x = Some y) l l'.
Proof.
  revert l'; induction l as [|x t IH]; intros l' H; simpl in H.
  - injection H as <-. constructor.
  - destruct (f x) as [y|] eqn:Hx; [|discriminate].
    destruct (map_all f t) as [ys|] eqn:Ht; [|discriminate].
    injection H as <-. constructor; auto.
Qed.

Lemma map_all_some {A B : Type} (f : A -> option B) (l : list A) :
  (forall x, In x l -> f x <> None) -> exists l', map_all f l = Some l'.
Proof.
  induction l as [|x t IH]; intros H; simpl; [eauto|].
  destruct (f x) as [y|] eqn:Hx; [|exfalso; apply (H x); [left; reflexivity|exact Hx]].
  destruct IH as [ys ->]; [intros z Hz; apply H; right; exact Hz|]. eauto.
Qed.

Lemma Forall2_in_r {A B : Type} (P : A -> B -> Prop) (l : list A) (l' : list B) (y : B) :
  Forall2 P l l' -> In y l' -> exists x, In x l /\ P x y.
Proof.
  induction 1 as [|x y' t t' Hxy _ IH]; intros Hin; [destruct Hin|].
  destruct Hin as [<-|Hin].
  - exists x. split; [left; reflexivity|exact Hxy].
  - destruct (IH Hin) as (z & Hz & Hp). exists z. split; [right; exact Hz|exact Hp].
Qed.

(** Every record [fetch_fda_data] returns is the normalisation of an item. *)
Lemma fetch_fda_data_in (resp : response (field (list (option fda_item))))
    (f : fda_result) :
  In f (fetch_fda_data resp) -> exists it, fda_result_of_item (Some it) = Some f.
Proof.
  unfold fetch_fda_data.
  destruct resp as [|status body]; [intros []|].
  destruct (Z.eqb status 200); [|intros []].
  destruct body as [[| |items]|]; try (intros []).
  destruct (map_all fda_result_of_item items) as [res|] eqn:Hm; [|intros []].
  intros Hin.
  destruct (Forall2_in_r _ _ _ _ (map_all_forall2 _ _ _ Hm) Hin) as ([it|] & _ & Hx).
  - exists it. exact Hx.
  - discriminate.
Qed.

Lemma digit_digit_char (n : Z) : 0 <= n <= 9 -> digit (digit_char n) = Some n.
Proof.
  intros Hn. unfold digit, digit_char. cbv beta zeta.
  rewrite Ascii.nat_ascii_embedding by lia.
  replace ((48 <=? 48 + Z.to_nat n)%nat && (48 + Z.to_nat n <=? 57)%nat) with true.
  - f_equal. lia.
  - symmetry. apply andb_true_intro. split; apply Nat.leb_le; lia.
Qed.

Lemma year4_digits (y : Z) (r : string) :
  0 <= y <= 9999 ->
  year4 (String (digit_char (y / 1000)) (String (digit_char (y / 100 mod 10))
         (String (digit_char (y / 10 mod 10)) (String (digit_char (y mod 10)) r))))
  = Some (y, r).
Proof.
  intros Hy. unfold year4.
  pose proof (Z.mod_pos_bound (y / 100) 10 ltac:(lia)).
  pose proof (Z.mod_pos_bound (y / 10) 10 ltac:(lia)).
  pose proof (Z.mod_pos_bound y 10 ltac:(lia)).
  assert (0 <= y / 1000 < 10)
    by (split; [apply Z.div_pos | apply Z.div_lt_upper_bound]; lia).
  rewrite !digit_digit_char by lia.
  assert (E1 : y = 10 * (y / 10) + y mod 10) by (apply Z.div_mod; lia).
  assert (E2 : y / 10 = 10 * (y / 100) + y / 10 mod 10).
  { replace (y / 100) with (y / 10 / 10) by (rewrite Z.div_div by lia; reflexivity).
    apply Z.div_mod; lia. }
  assert (E3 : y / 100 = 10 * (y / 1000) + y / 100 mod 10).
  { replace (y / 1000) with (y / 100 / 10) by (rewrite Z.div_div by lia; reflexivity).
    apply Z.div_mod; lia. }
  f_equal. f_equal. lia.
Qed.

(** [YYYYMMDD] with its dashes inserted, as [format_decision_date] does. *)
Lemma format_yyyymmdd (y m d : Z) :
  format_decision_date (PyStr (yyyymmdd y m d)) =
  PyStr (String (digit_char (y / 1000)) (String (digit_char (y / 100 mod 10))
         (String (digit_char (y / 10 mod 10)) (String (digit_char (y mod 10))
         (String "-" (String (digit_char (m / 10)) (String (digit_char (m mod 10))
         (String "-" (String (digit_char (d / 10)) (String (digit_char (d mod 10))
          EmptyString)))))))))).
Proof. reflexivity. Qed.

Lemma ymd_match_dashed (y m d : Z) :
  0 <= y <= 9999 -> 1 <= m <= 12 -> 1 <= d <= 31 ->
  ymd_match (String (digit_char (y / 1000)) (String (digit_char (y / 100 mod 10))
         (String (digit_char (y / 10 mod 10)) (String (digit_char (y mod 10))
         (String "-" (String (digit_char (m / 10)) (String (digit_char (m mod 10))
         (String "-" (String (digit_char (d / 10)) (String (digit_char (d mod 10))
          EmptyString))))))))))
  = Some (y, m, d, EmptyString).
Proof.
  intros Hy Hm Hd. unfold ymd_match.
  rewrite year4_digits by lia.
  assert (Hm' : m = 1 \/ m = 2 \/ m = 3 \/ m = 4 \/ m = 5 \/ m = 6 \/ m = 7 \/ m = 8 \/ m = 9 \/ m = 10 \/ m = 11 \/ m = 12) by lia.
  assert (Hd' : d = 1 \/ d = 2 \/ d = 3 \/ d = 4 \/ d = 5 \/ d = 6 \/ d = 7 \/ d = 8 \/ d = 9 \/ d = 10 \/ d = 11 \/ d = 12 \/ d = 13 \/ d = 14 \/ d = 15 \/ d = 16 \/ d = 17 \/ d = 18 \/ d = 19 \/ d = 20 \/ d = 21 \/ d = 22 \/ d = 23 \/ d = 24 \/ d = 25 \/ d = 26 \/ d = 27 \/ d = 28 \/ d = 29 \/ d = 30 \/ d = 31) by lia.
  repeat destruct Hm' as [->|Hm']; try subst m;
    repeat destruct Hd' as [->|Hd']; try subst d; reflexivity.
Qed.

(** X3: an FDA [decision_date] written [YYYYMMDD] for a valid date is
    turned by [fetch_fda_data] into a string that [strptime(..., '%Y-%m-%d')]
    parses back to the same date. *)
Theorem fda_decision_date_roundtrip (y m d : Z) (it : fda_item)
    (Hy : 1 <= y <= 9999) (Hm : 1 <= m <= 12) (Hd : 1 <= d <= days_in_month y m)
    (Hit : decision_date it = Val (yyyymmdd y m d)) :
  exists f s, fda_result_of_item (Some it) = Some f /\
    fr_decisionDate f = PyStr s /\ strptime_ymd s = Some (toordinal y m d).
Proof.
  assert (Hd31 : days_in_month y m <= 31)
    by (unfold days_in_month;
        repeat match goal with |- context [match ?x with _ => _ end] => destruct x end;
        lia).
  unfold fda_result_of_item. rewrite Hit. simpl get_str.
  rewrite format_yyyymmdd.
  eexists; eexists; split; [reflexivity|]. split; [reflexivity|].
  unfold strptime_ymd. rewrite ymd_match_dashed by lia.
  assert (Hb : (1 <=? y) && (1 <=? m) && (m <=? 12) && (1 <=? d)
               && (d <=? days_in_month y m) = true)
    by (rewrite !andb_true_iff, !Z.leb_le; lia).
  simpl String.eqb. simpl andb. rewrite Hb. reflexivity.
Qed.

(** [analyze_record] returns whenever [source] is absent or a string. *)
Lemma analyze_record_string_source (now : clock) (r : record) (src : string) :
  get (source r) (PyStr "") = PyStr src ->
  exists i, analyze_record now r = Some i /\
    threatScore i = acc_score (run_factors now src r) /\
    (threatLevel i, confidence i) =
      determine_level (acc_score (run_factors now src r))
        (acc_conf (run_factors now src r)) /\
    strategicImplications i = acc_notes (run_factors now src r).
Proof.
  intros Hs. unfold analyze_record. rewrite Hs.
  destruct (determine_level _ _) as [lvl conf] eqn:Hd.
  eexists; split; [reflexivity|]. simpl. auto.
Qed.

(** X1: [fetch_fda_data] returns [] on an exception, a non-200 status, a
    body that is not a dict, a [null] or absent ['results'] and any [null]
    item; otherwise one record per item, in order; and a 200 answer whose
    items are all dicts always gives one record per item. *)
Theorem fetch_fda_data_results (resp : response (field (list (option fda_item)))) :
  (fetch_fda_data resp = [] \/
   exists items, resp = Answer 200 (Some (Val items)) /\
     Forall2 (fun it f => fda_result_of_item it = Some f) items (fetch_fda_data resp)) /\
  (forall items, (forall it, In it items -> it <> None) ->
     Forall2 (fun it f => fda_result_of_item it = Some f) items
       (fetch_fda_data (Answer 200 (Some (Val items))))).
Proof.
  split.
  - unfold fetch_fda_data.
    destruct resp as [|status body]; [left; reflexivity|].
    destruct (Z.eqb_spec status 200) as [->|]; [|left; reflexivity].
    destruct body as [[| |items]|]; try (left; reflexivity).
    destruct (map_all fda_result_of_item items) as [res|] eqn:Hm; [|left; reflexivity].
    right. exists items. split; [reflexivity|]. apply map_all_forall2, Hm.
  - intros items Hall.
    destruct (map_all_some fda_result_of_item items) as [res Hm].
    + intros [it|] Hin; [discriminate|]. exfalso. exact (Hall None Hin eq_refl).
    + simpl. rewrite Hm. apply map_all_forall2, Hm.
Qed.

(** X2: every record [fetch_fda_data] returns has source "FDA 510(k)" and
    a non-empty string [decisionDate] (so [analyze_record] never falls back
    to [startDate]); its analysis succeeds, fires the FDA factor (score at
    least 20, with its note) and never the clinical one. *)
Theorem fda_result_analysis (now : clock) (resp : response (field (list (option fda_item))))
    (f : fda_result) (Hin : In f (fetch_fda_data resp)) :
  fr_source f = "FDA 510(k)" /\
  truthy (fr_decisionDate f) = true /\
  effective_date (record_of_fda f) = fr_decisionDate f /\
  exists i, analyze_record now (record_of_fda f) = Some i /\
    20 <= threatScore i /\
    In "FDA 510(k) clearance provides market access" (strategicImplications i) /\
    ~ In "Active clinical development" (strategicImplications i).
Proof.
  destruct (fetch_fda_data_in resp f Hin) as (it & Hit).
  unfold fda_result_of_item in Hit. injection Hit as <-.
  set (dd := format_decision_date (get_str (decision_date it) "")).
  assert (Ht : truthy (if truthy dd then dd else PyStr "N/A") = true)
    by (destruct (truthy dd) eqn:E; [exact E|reflexivity]).
  split; [reflexivity|]. split; [exact Ht|].
  split; [unfold effective_date; simpl; rewrite Ht; reflexivity|].
  lazymatch goal with
  | |- context [analyze_record now (record_of_fda ?F)] =>
      destruct (analyze_record_string_source now (record_of_fda F) "FDA 510(k)" eq_refl)
        as (i & Hi & Hs & _ & Hn)
  end.
  exists i. split; [exact Hi|]. rewrite Hs, Hn.
  unfold run_factors, factor_competitor, factor_clinical, factor_fda,
    factor_advanced, factor_ophthalmic, factor_recency.
  assert (Hf : contains "FDA" "FDA 510(k)" = true) by reflexivity.
  assert (Hc : contains "Clinical" "FDA 510(k)" = false) by reflexivity.
  rewrite Hf, Hc.
  split_ifs; simpl; (split; [lia|]); intuition discriminate.
Qed.

(** X4: an FDA item with no, [null] or empty [decision_date] gets
    [decisionDate] "N/A", so the recency factor never fires for it; a
    non-empty [decision_date] that is not 8 characters long is kept as is. *)
Theorem fda_decision_date_default (it : fda_item) :
  exists f, fda_result_of_item (Some it) = Some f /\
    ((decision_date it = Absent \/ decision_date it = Null \/ decision_date it = Val "") ->
     fr_decisionDate f = PyStr "N/A" /\
     forall now a, factor_recency now (record_of_fda f) a = a) /\
    (forall s, decision_date it = Val s -> s <> "" -> String.length s <> 8%nat ->
     fr_decisionDate f = PyStr s).
Proof.
  destruct (fda_result_of_item (Some it)) as [f|] eqn:E; [|simpl in E; discriminate].
  exists f. split; [reflexivity|].
  assert (Hd : fr_decisionDate f =
                 if truthy (format_decision_date (get_str (decision_date it) ""))
                 then format_decision_date (get_str (decision_date it) "")
                 else PyStr "N/A")
    by (simpl in E; injection E as <-; reflexivity).
  split.
  - intros Hdd.
    assert (He : fr_decisionDate f = PyStr "N/A")
      by (rewrite Hd; destruct Hdd as [H|[H|H]]; rewrite H; reflexivity).
    split; [exact He|].
    intros now a. unfold factor_recency, effective_date, record_of_fda. simpl decisionDate.
    rewrite He. reflexivity.
  - intros s Hs Hne Hlen. rewrite Hd, Hs.
    apply String.eqb_neq in Hne. apply Nat.eqb_neq in Hlen.
    simpl. rewrite Hne, Hlen. simpl. rewrite Hne. reflexivity.
Qed.

Lemma clinical_result_source (st : option study) (c : clinical_result) :
  clinical_result_of_study st = Some c -> cr_source c = "ClinicalTrials.gov".
Proof.
  unfold clinical_result_of_study. intros H.
  repeat match type of H with
         | context [match ?x with _ => _ end] => destruct x
         end; try discriminate;
  injection H as <-; reflexivity.
Qed.

(** Every record [fetch_clinical_trials] returns is the normalisation of a study. *)
Lemma fetch_clinical_trials_in (resp : response (field (list (option study))))
    (c : clinical_result) :
  In c (fetch_clinical_trials resp) -> exists st, clinical_result_of_study st = Some c.
Proof.
  unfold fetch_clinical_trials.
  destruct resp as [|status body]; [intros []|].
  destruct (Z.eqb status 200); [|intros []].
  destruct body as [[| |studies]|]; try (intros []).
  destruct (map_all clinical_result_of_study (firstn 50 studies)) as [res|] eqn:Hm;
    [|intros []].
  intros Hin.
  destruct (Forall2_in_r _ _ _ _ (map_all_forall2 _ _ _ Hm) Hin) as (st & _ & Hst).
  exists st. exact Hst.
Qed.

(** X5: [fetch_clinical_trials] returns at most 50 records, all with
    source "ClinicalTrials.gov"; a non-empty result only comes from a 200
    answer and is one record per study among the first 50, in order. *)
Theorem fetch_clinical_trials_results (resp : response (field (list (option study)))) :
  (length (fetch_clinical_trials resp) <= 50)%nat /\
  Forall (fun c => cr_source c = "ClinicalTrials.gov") (fetch_clinical_trials resp) /\
  (fetch_clinical_trials resp = [] \/
   exists studies, resp = Answer 200 (Some (Val studies)) /\
     Forall2 (fun st c => clinical_result_of_study st = Some c)
       (firstn 50 studies) (fetch_clinical_trials resp)).
Proof.
  assert (Hgen : fetch_clinical_trials resp = [] \/
     exists studies, resp = Answer 200 (Some (Val studies)) /\
       Forall2 (fun st c => clinical_result_of_study st = Some c)
         (firstn 50 studies) (fetch_clinical_trials resp)).
  { unfold fetch_clinical_trials.
    destruct resp as [|status body]; [left; reflexivity|].
    destruct (Z.eqb_spec status 200) as [->|]; [|left; reflexivity].
    destruct body as [[| |studies]|]; try (left; reflexivity).
    destruct (map_all clinical_result_of_study (firstn 50 studies)) as [res|] eqn:Hm;
      [|left; reflexivity].
    right. exists studies. split; [reflexivity|]. apply map_all_forall2, Hm. }
  split; [|split; [|exact Hgen]].
  - destruct Hgen as [-> | (studies & _ & F)]; [simpl; lia|].
    rewrite <- (Forall2_length F), length_firstn. lia.
  - destruct Hgen as [-> | (studies & _ & F)]; [constructor|].
    apply Forall_forall. intros c Hc.
    destruct (Forall2_in_r _ _ _ _ F Hc) as (st & _ & Hst).
    exact (clinical_result_source st c Hst).
Qed.

(** X6: a ClinicalTrials.gov record always takes its effective date from
    [startDate] (it has no [decisionDate]); its analysis succeeds, fires the
    clinical factor (score at least 15, with its note) and never the FDA one. *)
Theorem clinical_result_analysis (now : clock) (resp : response (field (list (option study))))
    (c : clinical_result) (Hin : In c (fetch_clinical_trials resp)) :
  effective_date (record_of_clinical c) = cr_startDate c /\
  exists i, analyze_record now (record_of_clinical c) = Some i /\
    15 <= threatScore i /\
    In "Active clinical development" (strategicImplications i) /\
    ~ In "FDA 510(k) clearance provides market access" (strategicImplications i).
Proof.
  assert (Hsrc : cr_source c = "ClinicalTrials.gov").
  { destruct (fetch_clinical_trials_in resp c Hin) as (st & Hst).
    exact (clinical_result_source st c Hst). }
  split; [reflexivity|].
  destruct (analyze_record_string_source now (record_of_clinical c) "ClinicalTrials.gov")
    as (i & Hi & Hs & _ & Hn); [simpl; rewrite Hsrc; reflexivity|].
  exists i. split; [exact Hi|]. rewrite Hs, Hn.
  unfold run_factors, factor_competitor, factor_clinical, factor_fda,
    factor_advanced, factor_ophthalmic, factor_recency.
  assert (Hf : contains "FDA" "ClinicalTrials.gov" = false) by reflexivity.
  assert (Hc : contains "Clinical" "ClinicalTrials.gov" = true) by reflexivity.
  rewrite Hf, Hc.
  split_ifs; simpl; (split; [lia|]); intuition discriminate.
Qed.

(** ** Date strings and score ranges *)

Lemma try_alts_some {A : Type} (alts : list alt) (k : Z -> string -> option A)
    (s : string) (x : A) :
  try_alts alts k s = Some x ->
  exists a v r, In a alts /\ a s = Some (v, r) /\ k v r = Some x.
Proof.
  induction alts as [|a rest IH]; simpl; [discriminate|].
  destruct (a s) as [[v r]|] eqn:Ha.
  - destruct (k v r) as [y|] eqn:Hk.
    + intros H; injection H as <-. exists a, v, r. auto.
    + intros H. destruct (IH H) as (a' & v' & r' & Hin & H1 & H2).
      exists a', v', r'. auto.
  - intros H. destruct (IH H) as (a' & v' & r' & Hin & H1 & H2).
    exists a', v', r'. auto.
Qed.

Ltac alt_len :=
  intros s v r;
  repeat match goal with
         | |- context [match ?x with _ => _ end] => destruct x
         end;
  try discriminate; intros H; injection H as _ <-; simpl; lia.

Lemma alt_two_len (d1 lo hi : Z) s v r :
  alt_two d1 lo hi s = Some (v, r) -> String.length s = (String.length r + 2)%nat.
Proof. revert s v r; unfold alt_two; alt_len. Qed.

Lemma alt_12d_len s v r :
  alt_12d s = Some (v, r) -> String.length s = (String.length r + 2)%nat.
Proof. revert s v r; unfold alt_12d; alt_len. Qed.

Lemma alt_one_len (lo hi : Z) s v r :
  alt_one lo hi s = Some (v, r) -> String.length s = (String.length r + 1)%nat.
Proof. revert s v r; unfold alt_one; alt_len. Qed.

Lemma alt_space_one_len s v r :
  alt_space_one s = Some (v, r) -> String.length s = (String.length r + 2)%nat.
Proof.
  unfold alt_space_one. intros H.
  destruct s as [|c s']; [discriminate|].
  destruct c as [[] [] [] [] [] [] [] []]; try discriminate.
  apply alt_one_len in H. simpl. lia.
Qed.

Lemma dash_len s r : dash s = Some r -> String.length s = S (String.length r).
Proof.
  unfold dash. destruct s as [|c s']; [discriminate|].
  destruct c as [[] [] [] [] [] [] [] []]; try discriminate.
  intros H; injection H as <-; reflexivity.
Qed.

Lemma date_alt_len (alts : list alt) (a : alt) s v r :
  (alts = month_alts \/ alts = day_alts) -> In a alts -> a s = Some (v, r) ->
  (String.length r + 1 <= String.length s <= String.length r + 2)%nat.
Proof.
  intros [->| ->] Hin Ha; simpl in Hin;
    repeat destruct Hin as [<-|Hin];
    first [ apply alt_two_len in Ha | apply alt_one_len in Ha
          | apply alt_12d_len in Ha | apply alt_space_one_len in Ha | destruct Hin ];
    lia.
Qed.

Lemma ymd_match_len (s : string) (y m d : Z) (rest : string) :
  ymd_match s = Some (y, m, d, rest) ->
  (String.length rest + 8 <= String.length s <= String.length rest + 10)%nat.
Proof.
  unfold ymd_match.
  destruct (year4 s) as [[y0 r1]|] eqn:Hy; [|discriminate].
  assert (L1 : String.length s = (String.length r1 + 4)%nat).
  { unfold year4 in Hy.
    destruct s as [|a [|b [|c [|e r]]]]; try discriminate.
    repeat match type of Hy with
           | context [match ?x with _ => _ end] => destruct x
           end; try discriminate.
    injection Hy as _ <-. simpl. lia. }
  destruct (dash r1) as [r2|] eqn:Hd1; [|discriminate].
  apply dash_len in Hd1.
  intros H.
  destruct (try_alts_some _ _ _ _ H) as (a & v & r3 & Hin & Ha & Hk).
  pose proof (date_alt_len month_alts a r2 v r3 (or_introl eq_refl) Hin Ha) as L2.
  destruct (dash r3) as [r4|] eqn:Hd2; [|discriminate].
  apply dash_len in Hd2.
  destruct (try_alts_some _ _ _ _ Hk) as (a' & v' & r5 & Hin' & Ha' & Hk').
  pose proof (date_alt_len day_alts a' r4 v' r5 (or_intror eq_refl) Hin' Ha') as L3.
  injection Hk' as _ _ _ <-.
  lia.
Qed.

(** X7: [strptime(s, '%Y-%m-%d')] only accepts strings of 8 to 10
    characters, so a shorter date such as a month-only "2024-06" is never
    recent. *)
Theorem strptime_ymd_length (s : string) (d : Z) :
  (strptime_ymd s = Some d -> (8 <= String.length s <= 10)%nat) /\
  ((String.length s < 8)%nat -> forall now thr, is_date_recent now (PyStr s) thr = false).
Proof.
  assert (H1 : strptime_ymd s = Some d -> (8 <= String.length s <= 10)%nat).
  { unfold strptime_ymd.
    destruct (ymd_match s) as [[[[y m] dd] rest]|] eqn:Hm; [|discriminate].
    destruct (String.eqb_spec rest "") as [->|]; [|discriminate].
    intros _. apply ymd_match_len in Hm. simpl in Hm. lia. }
  split; [exact H1|].
  intros Hlen now thr. rewrite is_date_recent_str.
  destruct (_ || _); [reflexivity|].
  destruct (strptime_ymd s) as [d'|] eqn:Hp; [|reflexivity].
  exfalso.
  assert (Hg : forall d0, strptime_ymd s = Some d0 -> (8 <= String.length s <= 10)%nat).
  { intros d0. unfold strptime_ymd.
    destruct (ymd_match s) as [[[[y m] dd] rest]|] eqn:Hm; [|discriminate].
    destruct (String.eqb_spec rest "") as [->|]; [|discriminate].
    intros _. apply ymd_match_len in Hm. simpl in Hm. lia. }
  specialize (Hg d' Hp). lia.
Qed.

Lemma analyze_record_bounds (now : clock) (r : record) (i : intelligence)
    (H : analyze_record now r = Some i) :
  0 <= threatScore i <= 180 /\
  match threatLevel i with
  | CRITICAL => 70 <= confidence i <= 95
  | HIGH => 50 <= confidence i <= 90
  | MEDIUM => 30 <= confidence i <= 85
  | LOW => 60 <= confidence i <= 70
  end.
Proof.
  destruct (analyze_record_some now r i H) as (src & _ & Hs & Hd & _).
  rewrite Hs. rewrite run_factors_score in *. rewrite run_factors_conf in Hd.
  repeat match goal with
         | Hx : context [if ?b then _ else _] |- _ => destruct b
         | |- context [if ?b then _ else _] => destruct b
         end;
    unfold determine_level in Hd; simpl in Hd; injection Hd as E1 E2;
    rewrite E1; lia.
Qed.

(** X8: [analyze_record] gives a score between 0 and 180, and a confidence
    between 70 and 95 for CRITICAL, 50 and 90 for HIGH, 30 and 85 for
    MEDIUM and 60 and 70 for LOW. *)
Theorem analyze_record_ranges (now : clock) (r : record) (i : intelligence)
    (H : analyze_record now r = Some i) :
  0 <= threatScore i <= 180 /\
  match threatLevel i with
  | CRITICAL => 70 <= confidence i <= 95
  | HIGH => 50 <= confidence i <= 90
  | MEDIUM => 30 <= confidence i <= 85
  | LOW => 60 <= confidence i <= 70
  end.
Proof. exact (analyze_record_bounds now r i H). Qed.

(** ** The executive summary and the analysis step *)

Lemma level_eqb_true (a b : level) : level_eqb a b = true -> a = b.
Proof. destruct a, b; simpl; congruence. Qed.

Lemma analyze_record_level_score (now : clock) (r : record) (i : intelligence) :
  analyze_record now r = Some i ->
  match threatLevel i with
  | CRITICAL => 70 <= threatScore i
  | HIGH => 50 <= threatScore i < 70
  | MEDIUM => 30 <= threatScore i < 50
  | LOW => threatScore i < 30
  end.
Proof.
  intros H. destruct (analyze_record_some now r i H) as (src & _ & Hs & Hd & _).
  rewrite Hs. revert Hd.
  generalize (acc_score (run_factors now src r)) (acc_conf (run_factors now src r)).
  intros sc cf Hd. unfold determine_level in Hd.
  destruct (Z.leb_spec 70 sc), (Z.leb_spec 50 sc), (Z.leb_spec 30 sc),
    (Z.leb_spec 10 sc); injection Hd as E _; rewrite E; lia.
Qed.

Lemma analyze_record_actions (now : clock) (r : record) (i : intelligence) :
  analyze_record now r = Some i ->
  exists c d, actionItems i = generate_action_items (threatLevel i) c d.
Proof.
  unfold analyze_record.
  destruct (get (source r) (PyStr "")) as [|src]; [discriminate|].
  destruct (determine_level _ _) as [lvl conf].
  intros H. injection H as <-. simpl. eauto.
Qed.

Lemma critical_first_action (c d : string) :
  exists cn dn,
    match generate_action_items CRITICAL c d with
    | a :: _ => action a
    | [] => "Review immediately"
    end = ("IMMEDIATE: Executive briefing on " ++ cn ++ "'s " ++ dn)%string.
Proof. do 2 eexists. reflexivity. Qed.

Lemma Forall2_in_l {A B : Type} (P : A -> B -> Prop) (l : list A) (l' : list B) (x : A) :
  Forall2 P l l' -> In x l -> exists y, In y l' /\ P x y.
Proof.
  induction 1 as [|x' y t t' Hxy _ IH]; intros Hin; [destruct Hin|].
  destruct Hin as [<-|Hin].
  - exists y. split; [left; reflexivity|exact Hxy].
  - destruct (IH Hin) as (z & Hz & Hp). exists z. split; [right; exact Hz|exact Hp].
Qed.

Lemma in_firstn_in {A : Type} (n : nat) (l : list A) (x : A) :
  In x (firstn n l) -> In x l.
Proof.
  intros H. rewrite <- (firstn_skipn n l). apply in_or_app. left. exact H.
Qed.

Lemma summary_step_some (st st' : loop_state) (ar : analyzed) :
  summary_step st ar = Some st' ->
  ls_counts st' = incr (threatLevel (madisonIntelligence ar)) (ls_counts st) /\
  ls_total_conf st' = ls_total_conf st + confidence (madisonIntelligence ar).
Proof.
  unfold summary_step.
  destruct (threatLevel (madisonIntelligence ar));
    [destruct (critical_entry_of ar) | destruct (high_entry_of ar) | |];
    intros H; try discriminate; injection H as <-; split; reflexivity.
Qed.

Lemma summary_step_none (st : loop_state) (ar : analyzed) :
  summary_step st ar = None <->
  (threatLevel (madisonIntelligence ar) = CRITICAL \/
   threatLevel (madisonIntelligence ar) = HIGH) /\
  product_of (ar_record ar) = None.
Proof.
  unfold summary_step, critical_entry_of, high_entry_of.
  destruct (threatLevel (madisonIntelligence ar)), (product_of (ar_record ar));
    simpl; intuition discriminate.
Qed.

Lemma summary_loop_none (st0 : loop_state) (rs : list analyzed) :
  summary_loop st0 rs = None <->
  exists ar, In ar rs /\
    (threatLevel (madisonIntelligence ar) = CRITICAL \/
     threatLevel (madisonIntelligence ar) = HIGH) /\
    product_of (ar_record ar) = None.
Proof.
  revert st0; induction rs as [|ar rs IH]; intros st0; simpl.
  - split; [discriminate|]. intros (ar & [] & _).
  - destruct (summary_step st0 ar) as [st'|] eqn:Hs.
    + rewrite IH. split.
      * intros (x & Hx & P). exists x. split; [right; exact Hx|exact P].
      * intros (x & [E|Hx] & P).
        -- subst x. apply (proj2 (summary_step_none st0 ar)) in P. congruence.
        -- exists x. split; [exact Hx|exact P].
    + split; [intros _|reflexivity].
      exists ar. split; [left; reflexivity|]. apply (summary_step_none st0 ar). exact Hs.
Qed.

Lemma count_level_cons (l : level) (ar : analyzed) (rs : list analyzed) :
  count_level l (ar :: rs) =
    (if level_eqb (threatLevel (madisonIntelligence ar)) l then 1 else 0)
    + count_level l rs.
Proof.
  unfold count_level. cbn [filter].
  change (is_level l ar) with (level_eqb (threatLevel (madisonIntelligence ar)) l).
  destruct (level_eqb _ l); cbn [length]; [rewrite Nat2Z.inj_succ|]; lia.
Qed.

Lemma count_level_total (rs : list analyzed) :
  count_level CRITICAL rs + count_level HIGH rs + count_level MEDIUM rs
  + count_level LOW rs = Z.of_nat (length rs).
Proof.
  induction rs as [|ar rs IH]; [reflexivity|].
  rewrite !count_level_cons. cbn [length]. rewrite Nat2Z.inj_succ.
  destruct (threatLevel (madisonIntelligence ar)); cbn [level_eqb]; lia.
Qed.

Lemma summary_loop_counts (st0 st : loop_state) (rs : list analyzed) :
  summary_loop st0 rs = Some st ->
  n_CRITICAL (ls_counts st) = n_CRITICAL (ls_counts st0) + count_level CRITICAL rs /\
  n_HIGH (ls_counts st) = n_HIGH (ls_counts st0) + count_level HIGH rs /\
  n_MEDIUM (ls_counts st) = n_MEDIUM (ls_counts st0) + count_level MEDIUM rs /\
  n_LOW (ls_counts st) = n_LOW (ls_counts st0) + count_level LOW rs /\
  ls_total_conf st = ls_total_conf st0 + total_confidence rs.
Proof.
  revert st0; induction rs as [|ar rs IH]; intros st0 H; simpl in H.
  - injection H as <-. unfold count_level. simpl. lia.
  - destruct (summary_step st0 ar) as [st'|] eqn:Hs; [|discriminate].
    destruct (IH st' H) as (E1 & E2 & E3 & E4 & E5).
    destruct (summary_step_some _ _ _ Hs) as [Hc Ht].
    rewrite Hc in E1, E2, E3, E4. rewrite Ht in E5.
    rewrite !count_level_cons. cbn [total_confidence fold_right].
    fold (total_confidence rs).
    destruct (threatLevel (madisonIntelligence ar));
      cbn [level_eqb incr n_CRITICAL n_HIGH n_MEDIUM n_LOW] in *; lia.
Qed.

Lemma summary_fields (rs : list analyzed) (s : summary) :
  generate_executive_summary rs = Some s ->
  exists st, summary_loop (mkLoop counts0 [] [] 0) rs = Some st /\
    threatOverview s = ls_counts st /\
    totalRecords s = Z.of_nat (length rs) /\
    (rs <> [] -> averageConfidence s = py_round_div (ls_total_conf st) (Z.of_nat (length rs))).
Proof.
  unfold generate_executive_summary.
  destruct (summary_loop _ rs) as [st|] eqn:E; [|discriminate].
  intros H. injection H as <-. exists st.
  split; [reflexivity|]. split; [reflexivity|]. split; [reflexivity|].
  destruct rs; [contradiction|reflexivity].
Qed.

Lemma py_round_div_bounds (lo hi a b : Z) :
  0 < b -> lo * b <= a <= hi * b -> lo <= py_round_div a b <= hi.
Proof.
  intros Hb [Hlo Hhi]. unfold py_round_div.
  pose proof (Z.div_mod a b ltac:(lia)) as Hd.
  pose proof (Z.mod_pos_bound a b Hb) as Hm.
  remember (a / b) as q. remember (a mod b) as r.
  assert (Hq1 : lo <= q) by nia.
  assert (Hq2 : q <= hi) by nia.
  assert (Hq3 : q = hi -> r = 0) by (intros ->; nia).
  destruct (Z.ltb_spec (2 * r) b); [lia|].
  assert (q <> hi) by (intros E; specialize (Hq3 E); lia).
  destruct (Z.ltb_spec b (2 * r)); [lia|].
  destruct (Z.even q); lia.
Qed.

Lemma total_confidence_bounds (lo hi : Z) (rs : list analyzed) :
  Forall (fun ar => lo <= confidence (madisonIntelligence ar) <= hi) rs ->
  lo * Z.of_nat (length rs) <= total_confidence rs <= hi * Z.of_nat (length rs).
Proof.
  induction 1 as [|ar rs Har _ IH]; [simpl; lia|].
  cbn [total_confidence fold_right length]. fold (total_confidence rs).
  rewrite Nat2Z.inj_succ. nia.
Qed.

Lemma run_analysis_split (now : clock) (rs : list record) (ars : list analyzed)
    (s : summary) :
  run_analysis now rs = Some (ars, s) ->
  analyze_all now rs = Some ars /\ generate_executive_summary ars = Some s.
Proof.
  unfold run_analysis.
  destruct (analyze_all now rs) as [l|]; [|discriminate].
  destruct (generate_executive_summary l) as [s'|] eqn:E; [|discriminate].
  intros H. injection H as -> ->. auto.
Qed.

Lemma analyze_all_spec (now : clock) (rs : list record) (ars : list analyzed) :
  analyze_all now rs = Some ars ->
  map ar_record ars = rs /\
  Forall (fun ar => analyze_record now (ar_record ar) = Some (madisonIntelligence ar)) ars.
Proof.
  unfold analyze_all. intros H. apply map_all_forall2 in H.
  induction H as [|r ar rs ars Hr _ [IH1 IH2]]; [split; constructor|].
  destruct (analyze_record now r) as [i|] eqn:E; [|discriminate].
  injection Hr as <-. simpl. split; [congruence|constructor; auto].
Qed.

Lemma analyze_all_total (now : clock) (rs : list record) :
  (forall r, In r rs -> get (source r) (PyStr "") <> PyNone) ->
  exists ars, analyze_all now rs = Some ars.
Proof.
  intros H. unfold analyze_all. apply map_all_some.
  intros r Hr. specialize (H r Hr).
  destruct (get (source r) (PyStr "")) as [|src] eqn:Hs; [contradiction|].
  destruct (analyze_record_string_source now r src Hs) as (i & Hi & _).
  rewrite Hi. discriminate.
Qed.

Lemma summary_critical_in (ars : list analyzed) (s : summary) (e : critical_entry) :
  generate_executive_summary ars = Some s -> In e (criticalThreats s) ->
  exists ar, In ar ars /\ threatLevel (madisonIntelligence ar) = CRITICAL /\
    critical_entry_of ar = Some e.
Proof.
  unfold generate_executive_summary.
  destruct (summary_loop _ ars) as [st|] eqn:E; [|discriminate].
  intros H Hin. injection H as <-.
  change (In e (firstn 5 (sort_desc ce_threatScore (ls_critical st)))) in Hin.
  apply in_firstn_in in Hin. unfold sort_desc in Hin.
  apply (Permutation_in _ (sort_desc_aux_perm ce_threatScore [] (ls_critical st))) in Hin.
  destruct (summary_loop_entries _ _ _ E) as (crit & high & Hc & Fc & _).
  rewrite Hc in Hin. simpl in Hin.
  destruct (Forall2_in_r _ _ _ _ Fc Hin) as (ar & Har & He).
  apply filter_In in Har. destruct Har as [Har Hl].
  exists ar. split; [exact Har|]. split; [apply level_eqb_true, Hl|exact He].
Qed.

Lemma summary_high_in (ars : list analyzed) (s : summary) (e : high_entry) :
  generate_executive_summary ars = Some s -> In e (highThreats s) ->
  exists ar, In ar ars /\ threatLevel (madisonIntelligence ar) = HIGH /\
    high_entry_of ar = Some e.
Proof.
  unfold generate_executive_summary.
  destruct (summary_loop _ ars) as [st|] eqn:E; [|discriminate].
  intros H Hin. injection H as <-.
  change (In e (firstn 5 (sort_desc he_threatScore (ls_high st)))) in Hin.
  apply in_firstn_in in Hin. unfold sort_desc in Hin.
  apply (Permutation_in _ (sort_desc_aux_perm he_threatScore [] (ls_high st))) in Hin.
  destruct (summary_loop_entries _ _ _ E) as (crit & high & _ & _ & Hh & Fh).
  rewrite Hh in Hin. simpl in Hin.
  destruct (Forall2_in_r _ _ _ _ Fh Hin) as (ar & Har & He).
  apply filter_In in Har. destruct Har as [Har Hl].
  exists ar. split; [exact Har|]. split; [apply level_eqb_true, Hl|exact He].
Qed.

Lemma product_of_fda (f : fda_result) : product_of (record_of_fda f) <> None.
Proof.
  unfold product_of, record_of_fda. cbn [deviceName trialTitle get].
  destruct (fr_deviceName f) as [|d]; simpl; [discriminate|].
  destruct (negb (String.eqb d "")); discriminate.
Qed.

Lemma product_of_clinical (c : clinical_result) :
  product_of (record_of_clinical c) = None <-> cr_trialTitle c = PyNone.
Proof.
  unfold product_of, record_of_clinical. cbn [deviceName trialTitle get truthy].
  destruct (cr_trialTitle c); split; congruence.
Qed.

Lemma lower_ascii_idem (c : ascii) : lower_ascii (lower_ascii c) = lower_ascii c.
Proof. destruct c as [[] [] [] [] [] [] [] []]; reflexivity. Qed.

Lemma lower_idem (s : string) : lower (lower s) = lower s.
Proof. induction s as [|c s IH]; simpl; [reflexivity|]. rewrite lower_ascii_idem, IH. reflexivity. Qed.

Lemma lower_eqb_empty (s : string) : String.eqb (lower s) "" = String.eqb s "".
Proof. destruct s; reflexivity. Qed.

Lemma str_or_empty_lower (v : option pyval) :
  lower (str_or_empty (option_map lower_pv v)) = lower (str_or_empty v).
Proof.
  unfold str_or_empty. destruct v as [[|s]|]; simpl; try reflexivity.
  rewrite lower_eqb_empty. destruct (String.eqb s ""); [reflexivity|apply lower_idem].
Qed.

Lemma search_text_lower (r : record) : search_text (lower_fields r) = search_text r.
Proof.
  unfold search_text. cbn [lower_fields deviceName trialTitle productCode].
  rewrite !str_or_empty_lower. reflexivity.
Qed.

Lemma run_factors_lower (now : clock) (src : string) (r : record) :
  run_factors now src (lower_fields r) = run_factors now src r.
Proof.
  unfold run_factors, factor_competitor, factor_clinical, factor_fda,
    factor_advanced, factor_ophthalmic, factor_recency.
  rewrite !search_text_lower.
  change (effective_date (lower_fields r)) with (effective_date r).
  change (company (lower_fields r)) with (option_map lower_pv (company r)).
  change (trialTitle (lower_fields r)) with (option_map lower_pv (trialTitle r)).
  rewrite !str_or_empty_lower. reflexivity.
Qed.

(** X9: the threat overview of [generate_executive_summary] counts each
    level: [threatOverview[level]] is the number of analysed records of that
    level, and the four counts add up to [totalRecords]. *)
Theorem summary_counts (rs : list analyzed) (s : summary)
    (H : generate_executive_summary rs = Some s) :
  n_CRITICAL (threatOverview s) = count_level CRITICAL rs /\
  n_HIGH (threatOverview s) = count_level HIGH rs /\
  n_MEDIUM (threatOverview s) = count_level MEDIUM rs /\
  n_LOW (threatOverview s) = count_level LOW rs /\
  n_CRITICAL (threatOverview s) + n_HIGH (threatOverview s)
  + n_MEDIUM (threatOverview s) + n_LOW (threatOverview s) = totalRecords s.
Proof.
  destruct (summary_fields rs s H) as (st & E & Ho & Ht & _).
  destruct (summary_loop_counts _ _ _ E) as (E1 & E2 & E3 & E4 & _).
  cbn [ls_counts counts0 n_CRITICAL n_HIGH n_MEDIUM n_LOW] in E1, E2, E3, E4.
  rewrite Ho, Ht. pose proof (count_level_total rs). lia.
Qed.

(** X10: when [main] analyses a non-empty list of records and summarises
    it, [totalRecords] is the number of records and [averageConfidence]
    lies between 30 and 95. *)
Theorem run_analysis_average (now : clock) (rs : list record) (ars : list analyzed)
    (s : summary) (H : run_analysis now rs = Some (ars, s)) (Hne : rs <> []) :
  totalRecords s = Z.of_nat (length rs) /\ 30 <= averageConfidence s <= 95.
Proof.
  destruct (run_analysis_split _ _ _ _ H) as [Ha Hg].
  destruct (analyze_all_spec _ _ _ Ha) as [Hm Hf].
  assert (Hl : length ars = length rs) by (rewrite <- Hm; symmetry; apply length_map).
  assert (Hne' : ars <> []) by (intros ->; apply Hne; rewrite <- Hm; reflexivity).
  destruct (summary_fields ars s Hg) as (st & E & _ & Ht & Havg).
  rewrite (Havg Hne'), Ht, <- Hl. split; [reflexivity|].
  destruct (summary_loop_counts _ _ _ E) as (_ & _ & _ & _ & Etot).
  cbn [ls_total_conf] in Etot. rewrite Etot.
  assert (Fb : Forall (fun ar => 30 <= confidence (madisonIntelligence ar) <= 95) ars).
  { eapply Forall_impl; [|exact Hf]. intros ar Har.
    destruct (analyze_record_bounds _ _ _ Har) as [_ Hc].
    destruct (threatLevel (madisonIntelligence ar)); lia. }
  pose proof (total_confidence_bounds 30 95 ars Fb) as Hb.
  apply py_round_div_bounds; [|lia].
  destruct ars; [contradiction|]. cbn [length]. lia.
Qed.

(** X11: [generate_executive_summary] raises exactly when some CRITICAL or
    HIGH record has no product name: [deviceName] falsy and [trialTitle]
    bound to [None], so that slicing it fails. *)
Theorem generate_executive_summary_none (rs : list analyzed) :
  generate_executive_summary rs = None <->
  exists ar, In ar rs /\
    (threatLevel (madisonIntelligence ar) = CRITICAL \/
     threatLevel (madisonIntelligence ar) = HIGH) /\
    product_of (ar_record ar) = None.
Proof.
  rewrite <- (summary_loop_none (mkLoop counts0 [] [] 0)).
  unfold generate_executive_summary.
  destruct (summary_loop _ rs); split; congruence.
Qed.

(** X12: after the analysis step of [main], every entry of
    [criticalThreats] has a score of at least 70, a confidence between 70
    and 95 and an urgent action "IMMEDIATE: Executive briefing on ..."
    (never the "Review immediately" default); every entry of [highThreats]
    has a score from 50 to 69 and a confidence between 50 and 90. *)
Theorem run_analysis_threat_entries (now : clock) (rs : list record)
    (ars : list analyzed) (s : summary) (H : run_analysis now rs = Some (ars, s)) :
  Forall (fun e => 70 <= ce_threatScore e /\ 70 <= ce_confidence e <= 95 /\
            exists cn dn, ce_urgentAction e =
              ("IMMEDIATE: Executive briefing on " ++ cn ++ "'s " ++ dn)%string)
    (criticalThreats s) /\
  Forall (fun e => 50 <= he_threatScore e < 70 /\ 50 <= he_confidence e <= 90)
    (highThreats s).
Proof.
  destruct (run_analysis_split _ _ _ _ H) as [Ha Hg].
  destruct (analyze_all_spec _ _ _ Ha) as [_ Hf]. rewrite Forall_forall in Hf.
  split; apply Forall_forall; intros e Hin.
  - destruct (summary_critical_in _ _ _ Hg Hin) as (ar & Har & Hl & He).
    specialize (Hf ar Har).
    pose proof (analyze_record_level_score _ _ _ Hf) as Hs. rewrite Hl in Hs.
    destruct (analyze_record_bounds _ _ _ Hf) as [_ Hc]. rewrite Hl in Hc.
    destruct (analyze_record_actions _ _ _ Hf) as (c & d & Hact).
    unfold critical_entry_of in He. destruct (product_of (ar_record ar)); [|discriminate].
    injection He as <-. cbn [ce_threatScore ce_confidence ce_urgentAction].
    rewrite Hact, Hl. split; [exact Hs|]. split; [exact Hc|].
    apply critical_first_action.
  - destruct (summary_high_in _ _ _ Hg Hin) as (ar & Har & Hl & He).
    specialize (Hf ar Har).
    pose proof (analyze_record_level_score _ _ _ Hf) as Hs. rewrite Hl in Hs.
    destruct (analyze_record_bounds _ _ _ Hf) as [_ Hc]. rewrite Hl in Hc.
    unfold high_entry_of in He. destruct (product_of (ar_record ar)); [|discriminate].
    injection He as <-. cbn [he_threatScore he_confidence].
    split; [exact Hs|exact Hc].
Qed.

(** X13: on the records [main] fetches ([fda_data + clinical_data]) every
    analysis succeeds, and the run fails exactly when a ClinicalTrials.gov
    result with a null [briefTitle] is rated CRITICAL or HIGH; FDA results
    never make it fail. *)
Theorem fetched_analysis_none (now : clock) (fda : list fda_result)
    (cl : list clinical_result) :
  run_analysis now (fetched_records fda cl) = None <->
  exists c i, In c cl /\ cr_trialTitle c = PyNone /\
    analyze_record now (record_of_clinical c) = Some i /\
    (threatLevel i = CRITICAL \/ threatLevel i = HIGH).
Proof.
  destruct (analyze_all_total now (fetched_records fda cl)) as (ars & Ha).
  { intros r Hr. unfold fetched_records in Hr. apply in_app_or in Hr.
    destruct Hr as [Hr|Hr]; apply in_map_iff in Hr; destruct Hr as (x & <- & _);
      cbn; discriminate. }
  unfold run_analysis. rewrite Ha.
  destruct (analyze_all_spec _ _ _ Ha) as [Hm Hf]. rewrite Forall_forall in Hf.
  assert (E : (match generate_executive_summary ars with
               | None => None
               | Some s => Some (ars, s)
               end = None) <-> summary_loop (mkLoop counts0 [] [] 0) ars = None).
  { unfold generate_executive_summary. destruct (summary_loop _ ars); split; congruence. }
  rewrite E, summary_loop_none. split.
  - intros (ar & Har & Hl & Hp).
    specialize (Hf ar Har).
    assert (Hr : In (ar_record ar) (fetched_records fda cl))
      by (rewrite <- Hm; apply in_map; exact Har).
    unfold fetched_records in Hr. apply in_app_or in Hr.
    destruct Hr as [Hr|Hr]; apply in_map_iff in Hr; destruct Hr as (x & Ex & Hx).
    + exfalso. apply (product_of_fda x). rewrite Ex. exact Hp.
    + exists x, (madisonIntelligence ar). split; [exact Hx|].
      split; [apply (proj1 (product_of_clinical x)); rewrite Ex; exact Hp|].
      rewrite Ex. auto.
  - intros (c & i & Hc & Ht & Hi & Hl).
    assert (Hr : In (record_of_clinical c) (fetched_records fda cl))
      by (unfold fetched_records; apply in_or_app; right; apply in_map; exact Hc).
    rewrite <- Hm in Hr. apply in_map_iff in Hr. destruct Hr as (ar & Ear & Har).
    exists ar. split; [exact Har|].
    specialize (Hf ar Har). rewrite Ear, Hi in Hf. injection Hf as Hf.
    split; [rewrite <- Hf; exact Hl|].
    rewrite Ear. apply product_of_clinical. exact Ht.
Qed.

(** X14: [analyze_record] lower-cases the text it matches, so it gives the
    same result when company, device name, trial title and product code are
    already lower-cased. *)
Theorem analyze_record_case_insensitive (now : clock) (r : record) :
  analyze_record now (lower_fields r) = analyze_record now r.
Proof.
  unfold analyze_record.
  change (source (lower_fields r)) with (source r).
  destruct (get (source r) (PyStr "")) as [|src]; [reflexivity|].
  rewrite run_factors_lower.
  change (company (lower_fields r)) with (option_map lower_pv (company r)).
  change (deviceName (lower_fields r)) with (option_map lower_pv (deviceName r)).
  change (trialTitle (lower_fields r)) with (option_map lower_pv (trialTitle r)).
  rewrite !str_or_empty_lower. reflexivity.
Qed.

(** X15: [strategicImplications] holds one note per factor that fired: at
    most seven notes, none repeated. *)
Theorem analyze_record_notes (now : clock) (r : record) (i : intelligence)
    (H : analyze_record now r = Some i) :
  NoDup (strategicImplications i) /\ (length (strategicImplications i) <= 7)%nat.
Proof.
  destruct (analyze_record_some now r i H) as (src & _ & _ & _ & Hn).
  rewrite Hn.
  unfold run_factors, factor_competitor, factor_clinical, factor_fda,
    factor_advanced, factor_ophthalmic, factor_recency.
  split_ifs; simpl;
    (split; [repeat constructor; simpl; intuition discriminate | lia]).
Qed.

(** ** Witnesses: the claims' theorems applied at concrete inputs *)

Lemma analyze_record_level_table_witness :
  exists i, analyze_record demo_clock (alcon_record "2024-10-15") = Some i /\
    threatLevel i = CRITICAL /\ confidence i = 95.
Proof.
  destruct (analyze_record demo_clock (alcon_record "2024-10-15")) as [i|] eqn:E.
  - exists i. split; [reflexivity|].
    assert (Hs : threatScore i = 110)
      by (vm_compute in E; injection E as <-; reflexivity).
    destruct (analyze_record_level_table demo_clock _ i E) as (src & Hsrc & H70 & _).
    vm_compute in Hsrc. injection Hsrc as <-.
    destruct H70 as [Hl Hc]; [lia|].
    split; [exact Hl|]. rewrite Hc. vm_compute. reflexivity.
  - vm_compute in E. discriminate E.
Defined.

Lemma alcon_scenario_witness :
  strptime_ymd "2024-10-15" = Some (today demo_clock - 45) /\
  exists i, analyze_record demo_clock (alcon_record "2024-10-15") = Some i /\
    threatScore i = 110 /\ threatLevel i = CRITICAL /\ confidence i = 95.
Proof.
  assert (Hp : strptime_ymd "2024-10-15" = Some (today demo_clock - 45))
    by (vm_compute; reflexivity).
  split; [exact Hp|].
  destruct (alcon_scenario demo_clock "2024-10-15" Hp) as (i & Hi & Hs & Hl & Hc & _).
  exists i. auto.
Defined.

Lemma clinical_phase_bonus_witness :
  exists i, analyze_record demo_clock phase3_record = Some i /\
    threatScore i = 45 /\ threatLevel i = MEDIUM /\ confidence i = 40.
Proof.
  destruct (analyze_record demo_clock phase3_record) as [i|] eqn:E.
  - exists i. split; [reflexivity|].
    destruct (clinical_phase_bonus demo_clock phase3_record i E)
      as (src & _ & _ & _ & Hph).
    destruct (Hph eq_refl) as (Hs & Hl & _ & Hc). auto.
  - vm_compute in E. discriminate E.
Defined.

Lemma no_factor_low_witness :
  exists i, analyze_record demo_clock quiet_record = Some i /\
    threatScore i = 0 /\ threatLevel i = LOW /\ confidence i = 60.
Proof.
  destruct (no_factor_low demo_clock quiet_record "Registry")
    as (i & Hi & Hs & Hl & Hc & _); try (vm_compute; reflexivity).
  exists i. auto.
Defined.

Lemma summary_top5_witness :
  exists s, generate_executive_summary batch7 = Some s /\
    length (criticalThreats s) = 5%nat /\
    Sorted (fun a b => ce_threatScore b <= ce_threatScore a) (criticalThreats s).
Proof.
  destruct (generate_executive_summary batch7) as [s|] eqn:E.
  - exists s. split; [reflexivity|].
    destruct (summary_top5 batch7 s E) as (crit & high & Fc & _ & (Hlen & Hsort & _) & _).
    split; [|exact Hsort].
    rewrite Hlen, <- (Forall2_length Fc). reflexivity.
  - vm_compute in E. discriminate E.
Defined.

Lemma low_confidence_60_or_70_witness :
  exists i, analyze_record demo_clock fda_only_record = Some i /\
    threatLevel i = LOW /\ confidence i = 70.
Proof.
  destruct (analyze_record demo_clock fda_only_record) as [i|] eqn:E.
  - assert (Hl : threatLevel i = LOW)
      by (vm_compute in E; injection E as <-; reflexivity).
    assert (Hs : threatScore i = 20)
      by (vm_compute in E; injection E as <-; reflexivity).
    exists i. split; [reflexivity|]. split; [exact Hl|].
    destruct (low_confidence_60_or_70 demo_clock fda_only_record i E Hl)
      as (_ & _ & H70).
    apply H70. lia.
  - vm_compute in E. discriminate E.
Defined.

Lemma decision_date_na_no_fallback_witness :
  0 <= today demo_clock - toordinal 2024 10 15 <= 730 /\
  effective_date na_record = PyStr "N/A" /\
  analyze_record demo_clock na_record =
    analyze_record demo_clock
      {| source := source na_record; company := company na_record;
         deviceName := deviceName na_record; trialTitle := trialTitle na_record;
         productCode := productCode na_record;
         decisionDate := decisionDate na_record; startDate := None |}.
Proof.
  assert (Hb : 0 <= today demo_clock - toordinal 2024 10 15 <= 730)
    by (vm_compute; split; discriminate).
  split; [exact Hb|].
  destruct (decision_date_na_no_fallback demo_clock na_record "2024-10-15"
              (toordinal 2024 10 15) eq_refl eq_refl
              ltac:(vm_compute; reflexivity) Hb)
    as (_ & _ & He & _ & Ha).
  split; [exact He | exact Ha].
Defined.

Lemma fda_result_analysis_witness :
  In vivity_result (fetch_fda_data fda_answer) /\
  exists i, analyze_record demo_clock (record_of_fda vivity_result) = Some i /\
    20 <= threatScore i.
Proof.
  assert (Hin : In vivity_result (fetch_fda_data fda_answer))
    by (vm_compute; left; reflexivity).
  split; [exact Hin|].
  destruct (fda_result_analysis demo_clock fda_answer vivity_result Hin)
    as (_ & _ & _ & i & Hi & Hs & _).
  exists i. split; [exact Hi|exact Hs].
Defined.

Lemma fda_decision_date_roundtrip_witness :
  decision_date vivity_item = Val (yyyymmdd 2024 10 15) /\
  exists f s, fda_result_of_item (Some vivity_item) = Some f /\
    fr_decisionDate f = PyStr s /\ strptime_ymd s = Some (toordinal 2024 10 15).
Proof.
  assert (Hit : decision_date vivity_item = Val (yyyymmdd 2024 10 15))
    by (vm_compute; reflexivity).
  split; [exact Hit|].
  apply (fda_decision_date_roundtrip 2024 10 15 vivity_item);
    [lia | lia | simpl; lia | exact Hit].
Defined.

Lemma clinical_result_analysis_witness :
  In trial_result (fetch_clinical_trials clinical_answer) /\
  exists i, analyze_record demo_clock (record_of_clinical trial_result) = Some i /\
    15 <= threatScore i.
Proof.
  assert (Hin : In trial_result (fetch_clinical_trials clinical_answer))
    by (vm_compute; left; reflexivity).
  split; [exact Hin|].
  destruct (clinical_result_analysis demo_clock clinical_answer trial_result Hin)
    as (_ & i & Hi & Hs & _).
  exists i. split; [exact Hi|exact Hs].
Defined.

Lemma analyze_record_ranges_witness :
  exists i, analyze_record demo_clock (alcon_record "2024-10-15") = Some i /\
    threatLevel i = CRITICAL /\ 70 <= confidence i <= 95.
Proof.
  destruct (analyze_record demo_clock (alcon_record "2024-10-15")) as [i|] eqn:E.
  - exists i. split; [reflexivity|].
    assert (Hl : threatLevel i = CRITICAL)
      by (vm_compute in E; injection E as <-; reflexivity).
    destruct (analyze_record_ranges demo_clock _ i E) as [_ Hc].
    rewrite Hl in Hc. split; [exact Hl|exact Hc].
  - vm_compute in E. discriminate E.
Defined.

Lemma summary_counts_witness :
  exists s, generate_executive_summary batch7 = Some s /\
    n_CRITICAL (threatOverview s) = count_level CRITICAL batch7 /\
    n_CRITICAL (threatOverview s) + n_HIGH (threatOverview s)
    + n_MEDIUM (threatOverview s) + n_LOW (threatOverview s) = totalRecords s.
Proof.
  destruct (generate_executive_summary batch7) as [s|] eqn:E.
  - exists s. split; [reflexivity|].
    destruct (summary_counts batch7 s E) as (H1 & _ & _ & _ & H5).
    split; [exact H1|exact H5].
  - vm_compute in E. discriminate E.
Defined.

Lemma run_analysis_average_witness :
  exists ars s, run_analysis demo_clock demo_records = Some (ars, s) /\
    totalRecords s = 2 /\ 30 <= averageConfidence s <= 95.
Proof.
  destruct (run_analysis demo_clock demo_records) as [[ars s]|] eqn:E.
  - exists ars, s. split; [reflexivity|].
    destruct (run_analysis_average demo_clock demo_records ars s E
                ltac:(vm_compute; discriminate)) as [Ht Ha].
    split; [rewrite Ht; vm_compute; reflexivity|exact Ha].
  - vm_compute in E. discriminate E.
Defined.

Lemma run_analysis_threat_entries_witness :
  exists ars s, run_analysis demo_clock demo_records = Some (ars, s) /\
    criticalThreats s <> [] /\
    Forall (fun e => 70 <= ce_threatScore e) (criticalThreats s).
Proof.
  destruct (run_analysis demo_clock demo_records) as [[ars s]|] eqn:E.
  - exists ars, s. split; [reflexivity|].
    assert (Hne : criticalThreats s <> [])
      by (vm_compute in E; injection E as _ <-; discriminate).
    split; [exact Hne|].
    destruct (run_analysis_threat_entries demo_clock demo_records ars s E) as [Hc _].
    eapply Forall_impl; [|exact Hc]. intros e (He & _). exact He.
  - vm_compute in E. discriminate E.
Defined.

Lemma analyze_record_notes_witness :
  exists i, analyze_record demo_clock (alcon_record "2024-10-15") = Some i /\
    NoDup (strategicImplications i) /\ length (strategicImplications i) = 4%nat.
Proof.
  destruct (analyze_record demo_clock (alcon_record "2024-10-15")) as [i|] eqn:E.
  - exists i. split; [reflexivity|].
    destruct (analyze_record_notes demo_clock _ i E) as [Hn _].
    split; [exact Hn|].
    vm_compute in E. injection E as <-. reflexivity.
  - vm_compute in E. discriminate E.
Defined.
